(** * The X11 error-trap manager of xpra ([xpra/gtk/error.py])

    A shallow embedding of the module: the depth counter of [_ErrorManager],
    the enter/exit primitives, the call-under-protection combinators, the
    three context managers and the two diagnostics ([get_X_error],
    [verify_sync]), followed by the properties that the specification
    states about them.

    Python code that reads and writes module state and may raise is written
    in a state-and-exception monad [M].  The GDK trap primitives are an
    interface ([Gdk]); every general theorem holds for all of its
    implementations, that is, whatever the X server answers. *)

From Stdlib Require Import ZArith String List Bool Lia DecimalString.
From stdpp Require Import gmap strings.
Import ListNotations.

Local Open Scope string_scope.
Local Open Scope Z_scope.
Local Open Scope list_scope.

(** ** Python values and exceptions *)

(** The values that reach [get_X_error] and the [%] operator. *)
Inductive atom :=
| AStr (s : string)
| AInt (z : Z).

(** An argument in the list given to [verify_sync]: an atom, or a tuple of
    atoms (the one kind of operand that [%] unpacks). *)
Inductive pyval :=
| PAtom (a : atom)
| PTuple (items : list atom).

(** The exception classes the module tells apart: [except XError],
    [except Exception], and what neither of them catches. *)
Inductive exn :=
| XError (msg : string)            (* class XError(Exception) *)
| AssertionError                   (* a failed [assert] *)
| TypeError (msg : string)         (* raised by the [%] operator *)
| ProgramError (name : string)     (* any other class deriving from Exception *)
| SystemExiting (name : string).   (* KeyboardInterrupt, SystemExit, GeneratorExit:
                                      BaseException, not Exception *)
(* [name] is the class as Python prints it: the bare name of a builtin
   ([ValueError]), the module and qualified name of any other class. *)

Definition is_XError (e : exn) : bool :=
  match e with XError _ => true | _ => false end.

Definition is_Exception (e : exn) : bool :=
  match e with SystemExiting _ => false | _ => true end.

(** [str(n)] for an int. *)
Definition str_int (z : Z) : string := NilZero.string_of_int (Z.to_int z).

Definition str_atom (a : atom) : string :=
  match a with AStr s => s | AInt z => str_int z end.

(** [XError.__str__] *)
Definition str_XError (msg : string) : string := "XError: " +:+ msg.

(** [" %s" % v]: a tuple operand is unpacked, so it must hold exactly one
    item; any other operand is formatted as a whole. *)
Definition percent_s (v : pyval) : exn + string :=
  match v with
  | PAtom a => inr (" " +:+ str_atom a)
  | PTuple [a] => inr (" " +:+ str_atom a)
  | PTuple [] => inl (TypeError "not enough arguments for format string")
  | PTuple _ => inl (TypeError "not all arguments converted during string formatting")
  end.

(** ** What the module observes and changes *)

Inductive level := Debug | Error.

(** The calls the module makes to its collaborators, in order: the GDK trap
    primitives and the logger.  A log entry keeps the format string and
    those arguments whose text the model knows. *)
Inductive event :=
| TrapPush
| TrapPop (code : Z)
| Flush
| Log (lvl : level) (fmt : string) (args : list string)
| PrintStack.

(** The native trap adapter: [Gdk.error_trap_push], [Gdk.error_trap_pop]
    and [Gdk.flush], acting on the state [X] of the display connection. *)
Class Gdk (X : Type) := {
  error_trap_push : X -> X;
  error_trap_pop : X -> Z * X;
  flush : X -> X
}.

(** The module-level state: [trap.depth], the [xerror_to_name] dict, the
    display connection, and the journal of collaborator calls. *)
Record world (X : Type) := World {
  depth : Z;
  xerror_to_name : gmap Z string;
  display : X;
  journal : list event
}.
Arguments World {X}.
Arguments depth {X}.
Arguments xerror_to_name {X}.
Arguments display {X}.
Arguments journal {X}.

(** The [envbool] switches read when the module is imported. *)
Record config := Config {
  XPRA_SYNCHRONIZE : bool;
  XPRA_LOG_SYNC : bool;
  VERIFY_MAIN_THREAD : bool;
  LOG_NESTED_XTRAP : bool
}.

(** The defaults written in the source. *)
Definition default_config : config :=
  {| XPRA_SYNCHRONIZE := false;
     XPRA_LOG_SYNC := false;
     VERIFY_MAIN_THREAD := true;
     LOG_NESTED_XTRAP := false |}.

Inductive outcome (A : Type) :=
| Ret (a : A)
| Raise (e : exn).
Arguments Ret {A}.
Arguments Raise {A}.

(** What the interpreter and the native bindings answer: the thread test,
    the formatted stack (one list of lines per frame), and the two lazy
    imports of [get_X_error], each of which may raise. *)
Record host := Host {
  is_main_thread : bool;
  extract_stack : list (list string);
  constants : outcome (list (string * Z));
  get_error_text : Z -> outcome string
}.

(** ** The monad of module code *)

Definition M (X A : Type) : Type := world X -> outcome A * world X.

Definition ret {X A} (a : A) : M X A := fun w => (Ret a, w).

Definition raise {X A} (e : exn) : M X A := fun w => (Raise e, w).

Definition bind {X A B} (c : M X A) (k : A -> M X B) : M X B :=
  fun w =>
    match c w with
    | (Ret a, w1) => k a w1
    | (Raise e, w1) => (Raise e, w1)
    end.

Notation "x <- c ;; k" := (bind c (fun x => k))
  (at level 100, c at next level, right associativity).
Notation "c ;;; k" := (bind c (fun _ => k))
  (at level 100, right associativity).

(** [try: body  except <class> as e: handler e]; the handler sees only the
    exceptions of the class, the others pass through. *)
Definition try_except {X A} (body : M X A) (catches : exn -> bool)
    (handler : exn -> M X A) : M X A :=
  fun w =>
    match body w with
    | (Ret a, w1) => (Ret a, w1)
    | (Raise e, w1) => if catches e then handler e w1 else (Raise e, w1)
    end.

(** [with ctx: block].  [__exit__] receives the exception in flight, if
    any; a true result suppresses it, an exception raised by [__exit__]
    replaces it.  The statement yields [None] when the block was cut short
    and its exception suppressed. *)
Definition with_ {X A} (enter : M X unit) (exit : option exn -> M X bool)
    (block : M X A) : M X (option A) :=
  enter ;;;
  fun w =>
    match block w with
    | (Ret a, w1) => (exit None ;;; ret (Some a)) w1
    | (Raise e, w1) =>
        match exit (Some e) w1 with
        | (Ret true, w2) => (Ret None, w2)
        | (Ret false, w2) => (Raise e, w2)
        | (Raise e', w2) => (Raise e', w2)
        end
    end.

(** [assert cond], with assertions enabled as they are unless the
    interpreter runs with [-O]. *)
Definition assert_ {X} (cond : bool) : M X unit :=
  if cond then ret tt else raise AssertionError.

Definition when {X} (cond : bool) (c : M X unit) : M X unit :=
  if cond then c else ret tt.

Fixpoint for_each {X A} (l : list A) (body : A -> M X unit) : M X unit :=
  match l with
  | [] => ret tt
  | x :: l' => body x ;;; for_each l' body
  end.

Definition get_depth {X} : M X Z := fun w => (Ret (depth w), w).

Definition set_depth {X} (d : Z) : M X unit :=
  fun w => (Ret tt, World d (xerror_to_name w) (display w) (journal w)).

Definition emit {X} (ev : event) : M X unit :=
  fun w => (Ret tt, World (depth w) (xerror_to_name w) (display w) (journal w ++ [ev])).

(** [log(...)] is the logger's debug level, [log.error(...)] its error level. *)
Definition log {X} (fmt : string) (args : list string) : M X unit :=
  emit (Log Debug fmt args).

Definition log_error {X} (fmt : string) (args : list string) : M X unit :=
  emit (Log Error fmt args).

(** Modelled from the spec: [Logger.trap_error] of [xpra/log.py], which is
    not among the sources.  The specification requires the name resolution
    to tolerate an unavailable binding and to return the stringified code,
    which the statement after the [with] block does only when the context
    manager logs the failure and suppresses the exception. *)
Definition trap_error_exit {X} (message : string) (args : list string)
    (exc : option exn) : M X bool :=
  match exc with
  | Some _ => log_error message args ;;; ret true
  | None => ret false
  end.

Definition get_names {X} : M X (gmap Z string) :=
  fun w => (Ret (xerror_to_name w), w).

(** [xerror_to_name[code] = name] *)
Definition set_name {X} (code : Z) (name : string) : M X unit :=
  fun w => (Ret tt, World (depth w) (<[code := name]> (xerror_to_name w))
                          (display w) (journal w)).

(** A call that may raise but leaves the module state alone. *)
Definition answer {X A} (r : outcome A) : M X A := fun w => (r, w).

(** A call to one of the GDK primitives, recorded in the journal. *)
Definition on_display {X} (f : X -> X) (ev : event) : M X unit :=
  fun w => (Ret tt, World (depth w) (xerror_to_name w) (f (display w))
                          (journal w ++ [ev])).

(** The name in [repr] of the class of an exception: builtins by their
    bare name, [XError] by its module and name. *)
Definition class_name (e : exn) : string :=
  match e with
  | XError _ => "xpra.gtk.error.XError"
  | AssertionError => "AssertionError"
  | TypeError _ => "TypeError"
  | ProgramError name => name
  | SystemExiting name => name
  end.

(** What an f-string writes for a class object such as [e_typ]: the
    [repr] of the class, as in [<class 'ValueError'>]. *)
Definition class_repr (e : exn) : string :=
  "<class '" +:+ class_name e +:+ "'>".

(** [str(e)], used by the module on [XError] instances only. *)
Definition str_exn (e : exn) : string :=
  match e with
  | XError msg => str_XError msg
  | TypeError msg => msg
  | _ => ""
  end.

(** [name == "Success" or name.startswith("Bad")] *)
Definition is_error_name (name : string) : bool :=
  String.eqb name "Success" || String.prefix "Bad" name.

(** ** The module *)

Section ErrorManager.
Context {X : Type} `{Gdk X}.
Variable cfg : config.
Variable sys : host.

Definition verify_main_thread : M X unit :=
  if VERIFY_MAIN_THREAD cfg then
    when (negb (is_main_thread sys))
      (log_error "Error: invalid access from thread %s" [] ;;;
       emit PrintStack)
  else ret tt.

(** The body of the [with log.trap_error(...)] block of [get_X_error]:
    every path through it returns or raises. *)
Definition get_X_error_body (xerror : Z) : M X string :=
  constants <- answer (constants sys) ;;
  names <- get_names ;;
  when (bool_decide (names = ∅))
    (set_name 0 "OK" ;;;
     for_each constants (fun nc =>
       when (is_error_name (fst nc)) (set_name (snd nc) (fst nc))) ;;;
     log "get_X_error(..) initialized error names: %s" []) ;;;
  names <- get_names ;;
  match names !! xerror with
  | Some name => ret (if String.eqb name "" then str_int xerror else name)
  | None => answer (get_error_text sys xerror)
  end.

Definition get_X_error (xerror : atom) : M X string :=
  match xerror with
  | AStr s => ret s
  | AInt code =>
      r <- with_ (ret tt)
             (trap_error_exit "Error retrieving error string for %s" [str_int code])
             (get_X_error_body code) ;;
      match r with
      | Some name => ret name
      | None => ret (str_int code)
      end
  end.

(** [raise XError(error)]: the constructor resolves the name. *)
Definition raise_XError {A} (error : Z) : M X A :=
  msg <- get_X_error (AInt error) ;;
  raise (XError msg).

Definition Xenter : M X unit :=
  d <- get_depth ;;
  assert_ (0 <=? d) ;;;
  verify_main_thread ;;;
  on_display error_trap_push TrapPush ;;;
  when (XPRA_LOG_SYNC cfg) (log "X11trap.enter at level %i" [str_int d]) ;;;
  when (LOG_NESTED_XTRAP cfg && (0 <? d))
    (for_each (extract_stack sys) (fun _ => log "%s" [])) ;;;
  set_depth (d + 1).

Definition Xexit (need_sync : bool) : M X unit :=
  d <- get_depth ;;
  assert_ (0 <=? d) ;;;
  set_depth (d - 1) ;;;
  when (XPRA_LOG_SYNC cfg)
    (log "X11trap.exit at level %i, need_sync=%s"
         [str_int (d - 1); if need_sync then "True" else "False"]) ;;;
  when ((d - 1 =? 0) && need_sync) (on_display flush Flush) ;;;
  error <- (fun w => let (code, x) := error_trap_pop (display w) in
                     (Ret code, World (depth w) (xerror_to_name w) x
                                      (journal w ++ [TrapPop code]))) ;;
  if error =? 0 then ret tt else raise_XError error.

Definition safe_x_exit : M X unit :=
  try_except (Xexit true) is_XError (fun e =>
    log ("Warning: '" +:+ str_exn e +:+ "' detected while already in unwind; discarding") []).

Definition _call {A} (need_sync : bool) (fun_ : M X A) : M X A :=
  value <- try_except (Xenter ;;; fun_) is_Exception (fun e =>
             log "_call%s" [] ;;;
             log "_call%s %s" [] ;;;
             try_except (Xexit need_sync) is_XError (fun ee =>
               log ("XError '" +:+ str_exn ee +:+ "' detected while already in unwind; discarding") []) ;;;
             raise e) ;;
  Xexit need_sync ;;;
  ret value.

Definition call_unsynced {A} (fun_ : M X A) : M X A := _call false fun_.

Definition call_synced {A} (fun_ : M X A) : M X A := _call true fun_.

Definition call {A} (fun_ : M X A) : M X A :=
  if XPRA_SYNCHRONIZE cfg then call_synced fun_ else call_unsynced fun_.

Definition swallow_unsynced {A} (fun_ : M X A) : M X bool :=
  try_except (call_unsynced fun_ ;;; ret true) is_XError (fun _ =>
    log "Ignoring X error on %s" [] ;;; ret false).

Definition swallow_synced {A} (fun_ : M X A) : M X bool :=
  try_except (call_synced fun_ ;;; ret true) is_XError (fun _ =>
    log "Ignoring X error on %s" [] ;;; ret false).

Definition swallow {A} (fun_ : M X A) : M X bool :=
  if XPRA_SYNCHRONIZE cfg then swallow_synced fun_ else swallow_unsynced fun_.

Definition assert_out : M X unit :=
  d <- get_depth ;;
  assert_ (d =? 0).

(** [XSyncContext] *)
Definition XSyncContext_exit (e_typ : option exn) : M X bool :=
  try_except (Xexit true) is_XError (fun e =>
    match e_typ with
    | None => raise e
    | Some t =>
        log ("Ignoring " +:+ class_repr t +:+ " during Xexit, "
             +:+ class_repr t +:+ " will be raised instead") []
    end) ;;;
  ret false.

Definition xsync {A} (block : M X A) : M X (option A) :=
  with_ Xenter XSyncContext_exit block.

(** [XSwallowContext] *)
Definition XSwallowContext_exit (e_typ : option exn) : M X bool :=
  when (bool_decide (is_Some e_typ)) (log "XError swallowed: %s, %s" []) ;;;
  safe_x_exit ;;;
  ret true.

Definition xswallow {A} (block : M X A) : M X (option A) :=
  with_ Xenter XSwallowContext_exit block.

(** [XLogContext] *)
Definition XLogContext_exit (e_typ : option exn) : M X bool :=
  when (bool_decide (is_Some e_typ))
    (log_error "Error: %s, %s" [] ;;;
     log_error " X11 log context" []) ;;;
  safe_x_exit ;;;
  ret true.

Definition xlog {A} (block : M X A) : M X (option A) :=
  with_ Xenter XLogContext_exit block.

(** [verify_sync]: the arguments after the first go to the logger
    unformatted and are not kept in the journal. *)
Definition verify_sync (args : list pyval) : M X unit :=
  d <- get_depth ;;
  when (d <=? 0)
    (log_error "Error: unmanaged X11 context" [] ;;;
     match args with
     | [] => ret tt
     | a0 :: _ =>
         match percent_s a0 with
         | inr fmt => log_error fmt []
         | inl e => raise e
         end
     end ;;;
     for_each (removelast (extract_stack sys)) (fun x =>
       for_each x (fun v => log_error " %s" [v]))).

End ErrorManager.

(** ** A concrete display

    The simplest adapter that meets the collaborator contract: the display
    holds the error codes the server has reported and nobody has collected;
    popping a trap reports the oldest one, or 0 ([Success]). *)

#[export] Instance queue_display : Gdk (list Z) := {|
  error_trap_push := fun q => q;
  error_trap_pop := fun q => (hd 0 q, tl q);
  flush := fun q => q
|}.

(** A server request that fails with [code]: the error is reported later,
    when a trap is popped. *)
Definition failing_request (code : Z) : M (list Z) unit :=
  fun w => (Ret tt, World (depth w) (xerror_to_name w) (display w ++ [code]) (journal w)).

(** The [Success] and [Bad*] codes of X11 among other constants. *)
Definition x11_constants : list (string * Z) :=
  [("Success", 0); ("BadRequest", 1); ("BadValue", 2); ("BadWindow", 3);
   ("BadPixmap", 4); ("BadAtom", 5); ("BadCursor", 6); ("BadFont", 7);
   ("BadMatch", 8); ("BadDrawable", 9); ("BadAccess", 10); ("BadAlloc", 11);
   ("BadColor", 12); ("BadGC", 13); ("BadIDChoice", 14); ("BadName", 15);
   ("BadLength", 16); ("BadImplementation", 17);
   ("CurrentTime", 0); ("NotifyNormal", 0); ("IsViewable", 2)].

Definition x11_host : host :=
  {| is_main_thread := true;
     extract_stack := [["  File a.py, line 1, in f"; "    g()"];
                       ["  File a.py, line 2, in g"; "    verify_sync()"];
                       ["  File error.py, line 248, in verify_sync"; "    stack = ..."]];
     constants := Ret x11_constants;
     get_error_text := fun code => Ret ("error " +:+ str_int code) |}.

(** The host when the native bindings cannot be imported. *)
Definition bare_host : host :=
  {| is_main_thread := true;
     extract_stack := [];
     constants := Raise (ProgramError "ImportError");
     get_error_text := fun _ => Raise (ProgramError "ImportError") |}.

Definition idle (q : list Z) : world (list Z) := World 0 ∅ q [].

(** ** Reading the journal *)

(** The calls to the native adapter, as opposed to the diagnostics. *)
Definition is_native (ev : event) : bool :=
  match ev with
  | TrapPush | TrapPop _ | Flush => true
  | Log _ _ _ | PrintStack => false
  end.

Definition native (j : list event) : list event := List.filter is_native j.

Definition is_Flush (ev : event) : bool :=
  match ev with Flush => true | _ => false end.

Definition is_TrapPop (ev : event) : bool :=
  match ev with TrapPop _ => true | _ => false end.

Definition count_flush (j : list event) : nat := length (List.filter is_Flush j).

Definition count_pop (j : list event) : nat := length (List.filter is_TrapPop j).

(** The dict after the loop of [get_X_error] over [constants.items()]. *)
Definition add_error_names (cs : list (string * Z)) (names : gmap Z string)
    : gmap Z string :=
  fold_left (fun m nc => if is_error_name (fst nc) then <[snd nc := fst nc]> m else m)
            cs names.

(** The cache as [get_X_error] leaves it when the constants import. *)
Definition cached_names (cs : list (string * Z)) (names : gmap Z string)
    : gmap Z string :=
  if bool_decide (names = ∅) then add_error_names cs (<[0 := "OK"]> names)
  else names.

(** ** Sequences of enter and exit calls *)

Inductive trap_call :=
| Enter
| Exit (need_sync : bool).

(** [matched k s]: with [k] regions open, [s] closes each of them and
    every region it opens itself, and never closes more. *)
Fixpoint matched (k : nat) (s : list trap_call) : bool :=
  match s with
  | [] => Nat.eqb k 0
  | Enter :: s' => matched (S k) s'
  | Exit _ :: s' => match k with O => false | S k' => matched k' s' end
  end.

(** The number of exits of [s], started at depth [d], that bring the depth
    to 0 and ask for a sync; computed on the calls alone. *)
Fixpoint synced_exits_at_zero (d : Z) (s : list trap_call) : nat :=
  match s with
  | [] => O
  | Enter :: s' => synced_exits_at_zero (d + 1) s'
  | Exit need_sync :: s' =>
      Nat.add (if (d - 1 =? 0) && need_sync then 1%nat else 0%nat)
              (synced_exits_at_zero (d - 1) s')
  end.

(** The number of exits that bring the depth to 0: the outermost regions
    closed by [s]. *)
Fixpoint exits_at_zero (d : Z) (s : list trap_call) : nat :=
  match s with
  | [] => O
  | Enter :: s' => exits_at_zero (d + 1) s'
  | Exit _ :: s' =>
      Nat.add (if d - 1 =? 0 then 1%nat else 0%nat)
              (exits_at_zero (d - 1) s')
  end.

Section Runs.
Context {X : Type} `{Gdk X}.
Variable cfg : config.
Variable sys : host.

Definition run_call (c : trap_call) : M X unit :=
  match c with
  | Enter => Xenter cfg sys
  | Exit need_sync => Xexit cfg sys need_sync
  end.

(** A caller that makes the calls of [s] one after the other, going on
    after a call that raises; it collects what each call did. *)
Fixpoint run_calls (s : list trap_call) (w : world X)
    : list (outcome unit) * world X :=
  match s with
  | [] => ([], w)
  | c :: s' =>
      let (r, w1) := run_call c w in
      let (rs, w2) := run_calls s' w1 in
      (r :: rs, w2)
  end.

End Runs.

(** ** What the properties speak of *)

Section Observations.
Context {X : Type} `{Gdk X}.

Definition init_log : event :=
  Log Debug "get_X_error(..) initialized error names: %s" [].

(** [undisturbed w w']: from [w] to [w'] the depth and the display are
    the same and no native call was made; only the name cache and the
    diagnostics may differ. *)
Definition undisturbed (w w' : world X) : Prop :=
  depth w' = depth w /\ display w' = display w
  /\ native (journal w') = native (journal w).

(** Whether an exit made at depth [d] pays the round trip. *)
Definition exit_flushes (d : Z) (need_sync : bool) : bool :=
  (d - 1 =? 0) && need_sync.

Definition display_before_pop (need_sync : bool) (w : world X) : X :=
  if exit_flushes (depth w) need_sync then flush (display w) else display w.

(** The code that the pop of this exit reports. *)
Definition popped (need_sync : bool) (w : world X) : Z :=
  fst (error_trap_pop (display_before_pop need_sync w)).

Definition exit_calls (need_sync : bool) (w : world X) : list event :=
  (if exit_flushes (depth w) need_sync then [Flush] else [])
  ++ [TrapPop (popped need_sync w)].

Definition unwind_text (ee : exn) : string :=
  "XError '" +:+ str_exn ee +:+ "' detected while already in unwind; discarding".

(** What a call of the sequence may do: return, or raise [XError]. *)
Definition returned_or_XError (r : outcome unit) : Prop :=
  r = Ret tt \/ exists msg, r = Raise (XError msg).

Definition swallow_text (e : exn) : string :=
  "Warning: '" +:+ str_exn e +:+ "' detected while already in unwind; discarding".

(** What a [with] statement yields when its context manager suppresses
    every exception. *)
Definition suppressed {A} (r : outcome A) : option A :=
  match r with Ret a => Some a | Raise _ => None end.

(** The entry of [XSyncContext.__exit__] for a dropped [XError]: the
    f-string interpolates the class object [e_typ] twice. *)
Definition ignoring_text (t : exn) : string :=
  "Ignoring " +:+ class_repr t +:+ " during Xexit, "
  +:+ class_repr t +:+ " will be raised instead".

Definition unmanaged_log : event := Log Error "Error: unmanaged X11 context" [].

(** The error-level entries for the stack: every line of every frame but
    the last. *)
Definition stack_log (sys : host) : list event :=
  flat_map (fun x => map (fun v => Log Error " %s" [v]) x)
           (removelast (extract_stack sys)).

Definition logged (w : world X) (l : list event) : world X :=
  World (depth w) (xerror_to_name w) (display w) (journal w ++ l).

(** An argument list whose first item the [%] operator accepts. *)
Definition formats (args : list pyval) : Prop :=
  match args with
  | [] => True
  | a0 :: _ => exists fmt, percent_s a0 = inr fmt
  end.

(** The pushes of a journal, to set against its pops. *)
Definition is_TrapPush (ev : event) : bool :=
  match ev with TrapPush => true | _ => false end.

Definition count_push (j : list event) : nat := length (List.filter is_TrapPush j).

(** The entries logged at error level, and the rest of the diagnostics. *)
Definition is_error_entry (ev : event) : bool :=
  match ev with Log Error _ _ => true | _ => false end.

Definition error_entries (j : list event) : list event := List.filter is_error_entry j.

(** The [Enter] calls of a sequence. *)
Fixpoint enters (s : list trap_call) : nat :=
  match s with
  | [] => O
  | Enter :: s' => S (enters s')
  | Exit _ :: s' => enters s'
  end.

(** The entry that [Xenter] and [Xexit] log when [XPRA_LOG_SYNC] is set. *)
Definition sync_log (cfg : config) (fmt : string) (args : list string) : list event :=
  if XPRA_LOG_SYNC cfg then [Log Debug fmt args] else [].

(** What [verify_main_thread] writes. *)
Definition thread_log (cfg : config) (sys : host) : list event :=
  if VERIFY_MAIN_THREAD cfg && negb (is_main_thread sys)
  then [Log Error "Error: invalid access from thread %s" []; PrintStack]
  else [].

(** What [Xenter] logs about the stack when it is nested. *)
Definition nested_log (cfg : config) (sys : host) (d : Z) : list event :=
  if LOG_NESTED_XTRAP cfg && (0 <? d)
  then map (fun _ => Log Debug "%s" []) (extract_stack sys)
  else [].

(** What [XLogContext.__exit__] logs when the block raised. *)
Definition xlog_entries : list event :=
  [Log Error "Error: %s, %s" []; Log Error " X11 log context" []].

(** A computation that only adds to the journal. *)
Definition grows {A} (c : M X A) : Prop :=
  forall w : world X, exists l, journal (snd (c w)) = journal w ++ l.

(** A computation that respects the trap discipline: run at a depth that
    is not negative it leaves the depth as it found it, and what it raises
    derives from [Exception]. *)
Definition well_bracketed {A} (c : M X A) : Prop :=
  forall w : world X, 0 <= depth w ->
    depth (snd (c w)) = depth w
    /\ forall e, fst (c w) = Raise e -> is_Exception e = true.

End Observations.

(** ** Runs on the concrete display *)

Definition two_regions : list trap_call :=
  [Enter; Enter; Exit true; Exit true; Enter; Exit false].

Definition inner_raises : list trap_call := [Enter; Enter; Exit false; Exit true].

Definition three_deep : M (list Z) unit :=
  call_unsynced default_config x11_host
    (call_unsynced default_config x11_host
       (call_unsynced default_config x11_host (failing_request 11))).

(** The configuration of a run with [XPRA_SYNCHRONIZE=1]. *)
Definition synchronized_config : config :=
  {| XPRA_SYNCHRONIZE := true;
     XPRA_LOG_SYNC := false;
     VERIFY_MAIN_THREAD := true;
     LOG_NESTED_XTRAP := false |}.

(** The host as seen from a thread that is not the main thread. *)
Definition worker_host : host :=
  {| is_main_thread := false;
     extract_stack := extract_stack x11_host;
     constants := constants x11_host;
     get_error_text := get_error_text x11_host |}.

(** Bindings in which two error constants share the value 5, and
    bindings without any constant of value 0 among the error names. *)
Definition shared_code_host : host :=
  {| is_main_thread := true;
     extract_stack := [];
     constants := Ret [("BadFirst", 5); ("BadAtom", 5); ("Five", 5)];
     get_error_text := fun _ => Raise (ProgramError "RuntimeError") |}.

Definition no_success_host : host :=
  {| is_main_thread := true;
     extract_stack := [];
     constants := Ret [("BadRequest", 1); ("CurrentTime", 0)];
     get_error_text := fun _ => Raise (ProgramError "RuntimeError") |}.

(** * Properties *)

Section Properties.
Context {X : Type} `{Gdk X}.
Variable cfg : config.
Variable sys : host.

(** ** Name resolution *)

Lemma native_app (j1 j2 : list event) : native (j1 ++ j2) = native j1 ++ native j2.
Proof. apply List.filter_app. Qed.

Lemma for_each_names (cs : list (string * Z)) (w : world X) :
  for_each cs (fun nc => when (is_error_name (fst nc)) (set_name (snd nc) (fst nc))) w
  = (Ret tt, World (depth w) (add_error_names cs (xerror_to_name w))
                   (display w) (journal w)).
Proof.
  revert w. induction cs as [|[name code] cs IH]; intros w.
  - destruct w; reflexivity.
  - cbn [for_each]. unfold bind at 1. cbn [fst snd].
    unfold add_error_names; cbn [fold_left fst snd].
    destruct (is_error_name name); cbn [when].
    + unfold set_name at 1. rewrite IH. reflexivity.
    + unfold ret at 1. rewrite IH. reflexivity.
Qed.

(** The block of [get_X_error], once the constants import. *)
Lemma get_X_error_body_eval (cs : list (string * Z)) (code : Z) (w : world X) :
  constants sys = Ret cs ->
  get_X_error_body sys code w =
    (match cached_names cs (xerror_to_name w) !! code with
     | Some name => Ret (if String.eqb name "" then str_int code else name)
     | None => get_error_text sys code
     end,
     World (depth w) (cached_names cs (xerror_to_name w)) (display w)
           (if bool_decide (xerror_to_name w = ∅)
            then journal w ++ [init_log] else journal w)).
Proof.
  intros Hcs. unfold get_X_error_body, cached_names.
  unfold bind at 1. unfold answer at 1. rewrite Hcs.
  unfold bind at 1. unfold get_names at 1.
  unfold bind at 1.
  destruct (bool_decide (xerror_to_name w = ∅)); cbn [when].
  - unfold bind at 1. unfold set_name at 1.
    unfold bind at 1. rewrite for_each_names. cbn [depth xerror_to_name display journal].
    unfold log, emit. cbn [depth xerror_to_name display journal].
    unfold bind, get_names. cbn [depth xerror_to_name display journal].
    destruct (_ !! code); reflexivity.
  - unfold ret at 1. unfold bind, get_names.
    destruct (_ !! code); destruct w; reflexivity.
Qed.

Lemma undisturbed_refl (w : world X) : undisturbed w w.
Proof. repeat split. Qed.

Lemma undisturbed_trans (w1 w2 w3 : world X) :
  undisturbed w1 w2 -> undisturbed w2 w3 -> undisturbed w1 w3.
Proof. unfold undisturbed. intros (?&?&?) (?&?&?). repeat split; congruence. Qed.

Lemma undisturbed_log (w : world X) (names : gmap Z string) (l : list event) :
  native l = [] ->
  undisturbed w (World (depth w) names (display w) (journal w ++ l)).
Proof.
  intros Hl. unfold undisturbed; cbn. rewrite native_app, Hl, app_nil_r. auto.
Qed.

Lemma get_X_error_body_undisturbed (code : Z) (w : world X) :
  exists r w1, get_X_error_body sys code w = (r, w1) /\ undisturbed w w1.
Proof.
  destruct (constants sys) as [cs|e] eqn:Hcs.
  - rewrite (get_X_error_body_eval cs code w Hcs). eexists _, _. split; [reflexivity|].
    destruct (bool_decide (xerror_to_name w = ∅)).
    + apply undisturbed_log. reflexivity.
    + rewrite <- (app_nil_r (journal w)). apply undisturbed_log. reflexivity.
  - unfold get_X_error_body, bind, answer. rewrite Hcs.
    eexists _, _. split; [reflexivity|]. apply undisturbed_refl.
Qed.

(** Name resolution always returns, and touches neither the depth nor
    the display. *)
Lemma get_X_error_returns (xerror : atom) (w : world X) :
  exists name w1, get_X_error sys xerror w = (Ret name, w1) /\ undisturbed w w1.
Proof.
  destruct xerror as [s|code].
  - exists s, w. split; [reflexivity|apply undisturbed_refl].
  - unfold get_X_error, with_. unfold bind at 1. unfold bind at 1. unfold ret at 1.
    destruct (get_X_error_body_undisturbed code w) as (r & w1 & Hb & Hu).
    rewrite Hb. destruct r as [name|e].
    + eexists _, _. split; [reflexivity|exact Hu].
    + cbn. eexists _, _. split; [reflexivity|].
      eapply undisturbed_trans; [exact Hu|]. apply undisturbed_log. reflexivity.
Qed.

(** ** The enter and exit primitives *)

Lemma verify_main_thread_undisturbed (w : world X) :
  exists w1, verify_main_thread cfg sys w = (Ret tt, w1) /\ undisturbed w w1.
Proof.
  unfold verify_main_thread.
  destruct (VERIFY_MAIN_THREAD cfg); [|exists w; split; [reflexivity|apply undisturbed_refl]].
  destruct (is_main_thread sys); cbn.
  - exists w; split; [reflexivity|apply undisturbed_refl].
  - eexists; split; [reflexivity|].
    unfold undisturbed; cbn. rewrite !native_app, !app_nil_r. auto.
Qed.

Lemma for_each_log_undisturbed {A} (l : list A) (body : A -> M X unit) (w : world X) :
  (forall a w0, exists w1, body a w0 = (Ret tt, w1) /\ undisturbed w0 w1) ->
  exists w1, for_each l body w = (Ret tt, w1) /\ undisturbed w w1.
Proof.
  intros Hbody. revert w. induction l as [|a l IH]; intros w.
  - exists w. split; [reflexivity|apply undisturbed_refl].
  - cbn [for_each]. unfold bind. destruct (Hbody a w) as (w1 & -> & Hu1).
    destruct (IH w1) as (w2 & -> & Hu2). exists w2. split; [reflexivity|].
    eapply undisturbed_trans; eassumption.
Qed.

Lemma log_undisturbed (lvl : level) (fmt : string) (args : list string) (w : world X) :
  exists w1, emit (Log lvl fmt args) w = (Ret tt, w1) /\ undisturbed w w1.
Proof. eexists; split; [reflexivity|]. apply undisturbed_log. reflexivity. Qed.

(** [Xenter] from a depth that is not negative: one trap pushed, the
    depth one more. *)
Lemma Xenter_spec (w : world X) :
  0 <= depth w ->
  exists w1, Xenter cfg sys w = (Ret tt, w1)
    /\ depth w1 = depth w + 1
    /\ display w1 = error_trap_push (display w)
    /\ native (journal w1) = native (journal w) ++ [TrapPush].
Proof.
  intros Hd. unfold Xenter. unfold bind at 1. unfold get_depth at 1.
  unfold bind at 1. destruct (Z.leb_spec 0 (depth w)); [|lia]. cbn [assert_]. unfold ret at 1.
  unfold bind at 1. destruct (verify_main_thread_undisturbed w) as (w1 & -> & Hd1 & Hx1 & Hj1).
  unfold bind at 1. unfold on_display at 1.
  set (w2 := World _ _ _ _).
  assert (Hlog : exists w3, when (XPRA_LOG_SYNC cfg) (log "X11trap.enter at level %i" [str_int (depth w)]) w2
                            = (Ret tt, w3) /\ undisturbed w2 w3).
  { destruct (XPRA_LOG_SYNC cfg); [apply log_undisturbed|].
    exists w2; split; [reflexivity|apply undisturbed_refl]. }
  destruct Hlog as (w3 & Hw3 & Hu3). unfold bind at 1. rewrite Hw3.
  assert (Hnest : exists w4, when (LOG_NESTED_XTRAP cfg && (0 <? depth w))
                     (for_each (extract_stack sys) (fun _ => log "%s" [])) w3
                   = (Ret tt, w4) /\ undisturbed w3 w4).
  { destruct (LOG_NESTED_XTRAP cfg && (0 <? depth w)); cbn [when].
    - apply for_each_log_undisturbed. intros _ w0. apply log_undisturbed.
    - exists w3; split; [reflexivity|apply undisturbed_refl]. }
  destruct Hnest as (w4 & Hw4 & Hu4). unfold bind at 1. rewrite Hw4.
  unfold set_depth. eexists; split; [reflexivity|].
  destruct (undisturbed_trans _ _ _ Hu3 Hu4) as (Hd4 & Hx4 & Hj4).
  cbn [depth display journal]. subst w2; cbn in *.
  rewrite Hx4, Hj4, native_app, Hx1, Hj1. repeat split; lia.
Qed.

(** [Xexit] from a depth that is not negative: the depth one less, a
    flush exactly when the new depth is 0 and a sync is asked for, one
    trap popped, and an [XError] exactly when the popped code is not 0. *)
Lemma Xexit_spec (need_sync : bool) (w : world X) :
  0 <= depth w ->
  exists r w1, Xexit cfg sys need_sync w = (r, w1)
    /\ depth w1 = depth w - 1
    /\ display w1 = snd (error_trap_pop (display_before_pop need_sync w))
    /\ native (journal w1) = native (journal w) ++ exit_calls need_sync w
    /\ (popped need_sync w = 0 -> r = Ret tt)
    /\ (popped need_sync w <> 0 ->
        exists msg w0, r = Raise (XError msg)
          /\ get_X_error sys (AInt (popped need_sync w)) w0 = (Ret msg, w1)).
Proof.
  intros Hd. unfold Xexit. unfold bind at 1. unfold get_depth at 1.
  unfold bind at 1. destruct (Z.leb_spec 0 (depth w)); [|lia]. cbn [assert_]. unfold ret at 1.
  unfold bind at 1. unfold set_depth at 1.
  set (w1 := World _ _ _ _).
  assert (Hlog : exists w2,
    when (XPRA_LOG_SYNC cfg)
      (log "X11trap.exit at level %i, need_sync=%s"
           [str_int (depth w - 1); if need_sync then "True" else "False"]) w1
    = (Ret tt, w2) /\ undisturbed w1 w2).
  { destruct (XPRA_LOG_SYNC cfg); [apply log_undisturbed|].
    exists w1; split; [reflexivity|apply undisturbed_refl]. }
  destruct Hlog as (w2 & Hw2 & Hd2 & Hx2 & Hj2). unfold bind at 1. rewrite Hw2.
  unfold bind at 1.
  unfold exit_calls, popped, display_before_pop, exit_flushes.
  subst w1; cbn [depth display journal] in *.
  destruct ((depth w - 1 =? 0) && need_sync); cbn [when].
  - unfold on_display at 1. unfold bind at 1. cbn [depth display journal xerror_to_name].
    rewrite Hx2. destruct (error_trap_pop (flush (display w))) as [code x'] eqn:Hpop.
    cbn [fst snd]. destruct (Z.eqb_spec code 0) as [->|Hne].
    + eexists _, _. split; [reflexivity|]. cbn [depth display journal].
      rewrite !native_app, Hj2. cbn. rewrite <- app_assoc.
      repeat split; auto; congruence.
    + unfold raise_XError, bind.
      match goal with |- context [get_X_error sys (AInt code) ?w0] =>
        destruct (get_X_error_returns (AInt code) w0) as (msg & w3 & Hg & Hd3 & Hx3 & Hj3);
        rewrite Hg; cbn in Hd3, Hx3, Hj3 end.
      eexists _, _. split; [reflexivity|].
      rewrite Hd3, Hx3, Hj3, !native_app, Hj2. cbn. rewrite <- app_assoc.
      repeat split; auto; [congruence|]. intros _. eexists _, _. split; [reflexivity|exact Hg].
  - unfold ret at 1. unfold bind at 1. cbn [depth display journal xerror_to_name].
    rewrite Hx2. destruct (error_trap_pop (display w)) as [code x'] eqn:Hpop.
    cbn [fst snd]. destruct (Z.eqb_spec code 0) as [->|Hne].
    + eexists _, _. split; [reflexivity|]. cbn [depth display journal].
      rewrite !native_app, Hj2. cbn.
      repeat split; auto; congruence.
    + unfold raise_XError, bind.
      match goal with |- context [get_X_error sys (AInt code) ?w0] =>
        destruct (get_X_error_returns (AInt code) w0) as (msg & w3 & Hg & Hd3 & Hx3 & Hj3);
        rewrite Hg; cbn in Hd3, Hx3, Hj3 end.
      eexists _, _. split; [reflexivity|].
      rewrite Hd3, Hx3, Hj3, !native_app, Hj2. cbn.
      repeat split; auto; [congruence|]. intros _. eexists _, _. split; [reflexivity|exact Hg].
Qed.

Lemma exit_calls_undisturbed (need_sync : bool) (w w' : world X) :
  undisturbed w w' ->
  popped need_sync w' = popped need_sync w
  /\ exit_calls need_sync w' = exit_calls need_sync w
  /\ display_before_pop need_sync w' = display_before_pop need_sync w.
Proof.
  intros (Hd & Hx & _).
  unfold exit_calls, popped, display_before_pop. rewrite Hd, Hx. auto.
Qed.

(** An exit whose [XError] is caught and logged, as in [safe_x_exit] and
    in the unwinding branch of [_call]: it returns, whatever was popped. *)
Lemma guarded_exit_spec (need_sync : bool) (text : exn -> string) (w : world X) :
  0 <= depth w ->
  exists w1,
    try_except (Xexit cfg sys need_sync) is_XError (fun e => log (text e) []) w
      = (Ret tt, w1)
    /\ depth w1 = depth w - 1
    /\ display w1 = snd (error_trap_pop (display_before_pop need_sync w))
    /\ native (journal w1) = native (journal w) ++ exit_calls need_sync w
    /\ (popped need_sync w <> 0 ->
        exists msg j, journal w1 = j ++ [Log Debug (text (XError msg)) []]).
Proof.
  intros Hd. unfold try_except.
  destruct (Xexit_spec need_sync w Hd) as (r & w1 & -> & Hd1 & Hx1 & Hj1 & Hok & Hbad).
  destruct (Z.eq_dec (popped need_sync w) 0) as [Hz|Hnz].
  - rewrite (Hok Hz). exists w1. repeat split; auto. intros; contradiction.
  - destruct (Hbad Hnz) as (msg & w0 & -> & _). cbn [is_XError].
    eexists. split; [reflexivity|]. cbn [depth display journal].
    rewrite native_app, app_nil_r. repeat split; auto.
    intros _. exists msg, (journal w1). reflexivity.
Qed.

(** ** Calls under protection *)

(** [fun] returns: the exit decides. *)
Lemma _call_returns {A} (need_sync : bool) (fn : M X A) (w w1 w2 : world X) (a : A) :
  Xenter cfg sys w = (Ret tt, w1) ->
  fn w1 = (Ret a, w2) ->
  0 <= depth w2 ->
  exists r w3, _call cfg sys need_sync fn w = (r, w3)
    /\ depth w3 = depth w2 - 1
    /\ display w3 = snd (error_trap_pop (display_before_pop need_sync w2))
    /\ native (journal w3) = native (journal w2) ++ exit_calls need_sync w2
    /\ (popped need_sync w2 = 0 -> r = Ret a)
    /\ (popped need_sync w2 <> 0 ->
        exists msg w0, r = Raise (XError msg)
          /\ get_X_error sys (AInt (popped need_sync w2)) w0 = (Ret msg, w3)).
Proof.
  intros He Hf Hd. unfold _call. unfold bind at 1. unfold try_except at 1.
  unfold bind at 1. rewrite He, Hf. unfold bind at 1.
  destruct (Xexit_spec need_sync w2 Hd) as (r & w3 & -> & Hd3 & Hx3 & Hj3 & Hok & Hbad).
  destruct (Z.eq_dec (popped need_sync w2) 0) as [Hz|Hnz].
  - rewrite (Hok Hz). cbn. exists (Ret a), w3. repeat split; auto. intros; contradiction.
  - destruct (Hbad Hnz) as (msg & w0 & -> & Hg).
    exists (Raise (XError msg)), w3. repeat split; auto; [intros; contradiction|].
    intros _. exists msg, w0. auto.
Qed.

(** [fun] raises an [Exception]: the trap is popped once, what the pop
    reports is dropped, and the exception of [fun] goes on. *)
Lemma _call_raising {A} (need_sync : bool) (fn : M X A) (w w1 w2 : world X) (e : exn) :
  Xenter cfg sys w = (Ret tt, w1) ->
  fn w1 = (Raise e, w2) ->
  is_Exception e = true ->
  0 <= depth w2 ->
  exists w3, _call cfg sys need_sync fn w = (Raise e, w3)
    /\ depth w3 = depth w2 - 1
    /\ display w3 = snd (error_trap_pop (display_before_pop need_sync w2))
    /\ native (journal w3) = native (journal w2) ++ exit_calls need_sync w2.
Proof.
  intros He Hf Hexc Hd. unfold _call. unfold bind at 1. unfold try_except at 1.
  unfold bind at 1. rewrite He, Hf, Hexc.
  unfold bind at 1. unfold log at 1, emit at 1.
  unfold bind at 1. unfold log at 1, emit at 1. cbn [depth xerror_to_name display journal].
  set (w2' := World _ _ _ _).
  assert (Hu : undisturbed w2 w2').
  { subst w2'. unfold undisturbed; cbn. rewrite !native_app, !app_nil_r. auto. }
  destruct (exit_calls_undisturbed need_sync _ _ Hu) as (_ & Hc & Hb).
  destruct Hu as (Hd2 & Hx2 & Hj2).
  unfold bind at 1.
  destruct (guarded_exit_spec need_sync unwind_text w2') as (w3 & Hg & Hd3 & Hx3 & Hj3 & _);
    [lia|].
  unfold unwind_text in Hg. rewrite Hg. unfold raise.
  exists w3. split; [reflexivity|]. rewrite Hd3, Hx3, Hj3, Hd2, Hj2, Hc, Hb. auto.
Qed.

(** [fun] raises what [except Exception] does not catch: [_call] makes
    no exit at all, and the world is as [fun] left it. *)
Lemma _call_not_caught {A} (need_sync : bool) (fn : M X A) (w w1 w2 : world X) (e : exn) :
  Xenter cfg sys w = (Ret tt, w1) ->
  fn w1 = (Raise e, w2) ->
  is_Exception e = false ->
  _call cfg sys need_sync fn w = (Raise e, w2).
Proof.
  intros He Hf Hexc. unfold _call. unfold bind at 1. unfold try_except at 1.
  unfold bind at 1. rewrite He, Hf, Hexc. reflexivity.
Qed.

(** ** Counting flushes and pops *)

Lemma count_flush_app (j1 j2 : list event) :
  count_flush (j1 ++ j2) = (count_flush j1 + count_flush j2)%nat.
Proof. unfold count_flush. rewrite List.filter_app, length_app. reflexivity. Qed.

Lemma count_flush_native (j : list event) : count_flush (native j) = count_flush j.
Proof.
  unfold count_flush, native. induction j as [|ev j IH]; [reflexivity|].
  destruct ev; cbn; auto.
Qed.

Lemma count_pop_app (j1 j2 : list event) :
  count_pop (j1 ++ j2) = (count_pop j1 + count_pop j2)%nat.
Proof. unfold count_pop. rewrite List.filter_app, length_app. reflexivity. Qed.

Lemma count_pop_native (j : list event) : count_pop (native j) = count_pop j.
Proof.
  unfold count_pop, native. induction j as [|ev j IH]; [reflexivity|].
  destruct ev; cbn; auto.
Qed.

Lemma count_flush_exit_calls (need_sync : bool) (w : world X) :
  count_flush (exit_calls need_sync w)
  = if exit_flushes (depth w) need_sync then 1%nat else 0%nat.
Proof. unfold exit_calls. destruct (exit_flushes _ _); reflexivity. Qed.

Lemma count_pop_exit_calls (need_sync : bool) (w : world X) :
  count_pop (exit_calls need_sync w) = 1%nat.
Proof. unfold exit_calls. destruct (exit_flushes _ _); reflexivity. Qed.

(** Counting in a journal whose native part is known: [Hj] states
    [native (journal w) = ...]. *)
Ltac flushes_from Hj :=
  match type of Hj with
  | native (journal ?w) = _ =>
      rewrite <- (count_flush_native (journal w)), Hj, count_flush_app,
        count_flush_native
  end.

Ltac pops_from Hj :=
  match type of Hj with
  | native (journal ?w) = _ =>
      rewrite <- (count_pop_native (journal w)), Hj, count_pop_app,
        count_pop_native
  end.

(** The invariant of a matched sequence, with [k] regions open at the
    start: no assertion fails, the depth ends [k] lower, and the flushes
    are those of the exits that reach depth 0 and ask for a sync. *)
Lemma run_calls_matched (s : list trap_call) :
  forall (k : nat) (w : world X),
    matched k s = true ->
    Z.of_nat k <= depth w ->
    let (rs, w') := run_calls cfg sys s w in
    depth w' = depth w - Z.of_nat k
    /\ count_flush (journal w')
       = (count_flush (journal w) + synced_exits_at_zero (depth w) s)%nat
    /\ length rs = length s
    /\ Forall returned_or_XError rs.
Proof.
  induction s as [|c s IH]; intros k w Hm Hk.
  - cbn in *. apply Nat.eqb_eq in Hm. subst k. repeat split; auto; lia.
  - cbn [run_calls]. destruct c as [|need_sync]; cbn [run_call matched] in *.
    + destruct (Xenter_spec w) as (w1 & -> & Hd1 & _ & Hj1); [lia|].
      specialize (IH (S k) w1 Hm). destruct (run_calls cfg sys s w1) as [rs w'].
      destruct IH as (Hd & Hf & Hl & Hrs); [lia|].
      cbn [synced_exits_at_zero]. rewrite Hd, Hf, Hd1.
      flushes_from Hj1.
      cbn [length]. repeat split; try lia.
      * cbn. lia.
      * constructor; [left; reflexivity|exact Hrs].
    + destruct k as [|k]; [discriminate|].
      destruct (Xexit_spec need_sync w) as (r & w1 & -> & Hd1 & _ & Hj1 & Hok & Hbad); [lia|].
      specialize (IH k w1 Hm). destruct (run_calls cfg sys s w1) as [rs w'].
      destruct IH as (Hd & Hf & Hl & Hrs); [lia|].
      cbn [synced_exits_at_zero]. rewrite Hd, Hf, Hd1.
      flushes_from Hj1. rewrite count_flush_exit_calls.
      unfold exit_flushes. cbn [length]. repeat split; try lia.
      constructor; [|exact Hrs].
      destruct (Z.eq_dec (popped need_sync w) 0) as [Hz|Hnz].
      * left. auto.
      * right. destruct (Hbad Hnz) as (msg & _ & -> & _). eauto.
Qed.

Lemma synced_le_exits (s : list trap_call) :
  forall d : Z, (synced_exits_at_zero d s <= exits_at_zero d s)%nat.
Proof.
  induction s as [|[|need_sync] s IH]; intros d; cbn.
  - lia.
  - apply IH.
  - specialize (IH (d - 1)). destruct (d - 1 =? 0), need_sync; cbn; lia.
Qed.

(** C2.  In a properly nested sequence of enter and exit calls, an exit
    flushes exactly when it brings the depth to 0 and [need_sync] is true
    (an exit that leaves the depth nonzero never does), so the flushes of
    the whole sequence are as many as its exits to depth 0 with
    [need_sync] true, which is at most one per outermost region. *)
Theorem flushes_are_synced_exits_at_zero (s : list trap_call) (w : world X) :
  matched 0 s = true ->
  0 <= depth w ->
  (forall need_sync (w0 : world X), 0 <= depth w0 ->
     count_flush (journal (snd (Xexit cfg sys need_sync w0)))
     = Nat.add (count_flush (journal w0))
         (if (depth (snd (Xexit cfg sys need_sync w0)) =? 0) && need_sync
          then 1%nat else 0%nat))
  /\ count_flush (journal (snd (run_calls cfg sys s w)))
     = (count_flush (journal w) + synced_exits_at_zero (depth w) s)%nat
  /\ (synced_exits_at_zero (depth w) s <= exits_at_zero (depth w) s)%nat.
Proof.
  intros Hm Hd. split; [|split].
  - intros need_sync w0 Hd0.
    destruct (Xexit_spec need_sync w0 Hd0) as (r & w1 & -> & Hd1 & _ & Hj1 & _).
    cbn [snd]. flushes_from Hj1. rewrite count_flush_exit_calls, Hd1. reflexivity.
  - pose proof (run_calls_matched s 0 w Hm) as Hrun.
    destruct (run_calls cfg sys s w) as [rs w']. cbn [snd].
    destruct Hrun as (_ & Hf & _); [cbn; lia|]. exact Hf.
  - apply synced_le_exits.
Qed.

(** C3.  After a matched, nested sequence of enter and exit calls started
    at a depth [d >= 0], the depth is [d] again; every call returned or
    raised [XError], and an exit that raises has already lowered the
    depth. *)
Theorem depth_restored (s : list trap_call) (w : world X) :
  matched 0 s = true ->
  0 <= depth w ->
  depth (snd (run_calls cfg sys s w)) = depth w
  /\ Forall returned_or_XError (fst (run_calls cfg sys s w))
  /\ (forall need_sync (w0 : world X) e, 0 <= depth w0 ->
        fst (Xexit cfg sys need_sync w0) = Raise e ->
        depth (snd (Xexit cfg sys need_sync w0)) = depth w0 - 1).
Proof.
  intros Hm Hd. pose proof (run_calls_matched s 0 w Hm) as Hrun.
  destruct (run_calls cfg sys s w) as [rs w']. cbn [fst snd].
  destruct Hrun as (Hd' & _ & _ & Hrs); [cbn; lia|].
  split; [cbn in Hd'; lia|]. split; [exact Hrs|].
  intros need_sync w0 e Hd0 _.
  destruct (Xexit_spec need_sync w0 Hd0) as (r & w1 & -> & Hd1 & _). exact Hd1.
Qed.

(** ** The context managers *)

Lemma safe_x_exit_spec (w : world X) :
  0 <= depth w ->
  exists w1, safe_x_exit cfg sys w = (Ret tt, w1)
    /\ depth w1 = depth w - 1
    /\ native (journal w1) = native (journal w) ++ exit_calls true w.
Proof.
  intros Hd.
  destruct (guarded_exit_spec true swallow_text w Hd) as (w1 & Hg & Hd1 & _ & Hj1 & _).
  exists w1. split; [exact Hg|]. auto.
Qed.

(** C4, as the code has it.  A [with xswallow] statement never raises:
    an [XError] found at exit is dropped whatever the code popped, and an
    exception raised inside the block, [XError] or not, is dropped as
    well, because [__exit__] returns [True]; the trap is popped exactly
    once. *)
Theorem xswallow_suppresses_everything {A} (block : M X A) (w w2 : world X)
    (r : outcome A) :
  0 <= depth w ->
  block (snd (Xenter cfg sys w)) = (r, w2) ->
  0 <= depth w2 ->
  exists w3, xswallow cfg sys block w = (Ret (suppressed r), w3)
    /\ depth w3 = depth w2 - 1
    /\ native (journal w3) = native (journal w2) ++ exit_calls true w2
    /\ count_pop (journal w3) = S (count_pop (journal w2)).
Proof.
  intros Hd Hb Hd2. destruct (Xenter_spec w Hd) as (w1 & He & _).
  rewrite He in Hb. cbn [snd] in Hb.
  unfold xswallow, with_. unfold bind at 1. rewrite He, Hb.
  assert (Hexit : forall e_typ, exists w3,
            XSwallowContext_exit cfg sys e_typ w2 = (Ret true, w3)
            /\ depth w3 = depth w2 - 1
            /\ native (journal w3) = native (journal w2) ++ exit_calls true w2).
  { intros e_typ. unfold XSwallowContext_exit. unfold bind at 1.
    assert (Hlog : exists w2', when (bool_decide (is_Some e_typ))
                      (log "XError swallowed: %s, %s" []) w2 = (Ret tt, w2')
                    /\ undisturbed w2 w2').
    { destruct (bool_decide (is_Some e_typ)); [apply log_undisturbed|].
      exists w2. split; [reflexivity|apply undisturbed_refl]. }
    destruct Hlog as (w2' & -> & Hu).
    destruct (exit_calls_undisturbed true _ _ Hu) as (_ & Hc & _).
    destruct Hu as (Hd2' & _ & Hj2').
    unfold bind at 1.
    destruct (safe_x_exit_spec w2') as (w3 & -> & Hd3 & Hj3); [lia|].
    exists w3. split; [reflexivity|]. rewrite Hd3, Hj3, Hd2', Hj2', Hc. auto. }
  assert (Hpops : forall w3 : world X,
            native (journal w3) = native (journal w2) ++ exit_calls true w2 ->
            count_pop (journal w3) = S (count_pop (journal w2))).
  { intros w3 Hj. pops_from Hj. rewrite count_pop_exit_calls. lia. }
  destruct r as [a|e]; cbn [suppressed]; cbv beta iota.
  - destruct (Hexit None) as (w3 & Hx & Hd3 & Hj3). unfold bind. rewrite Hx.
    exists w3. repeat split; auto.
  - destruct (Hexit (Some e)) as (w3 & Hx & Hd3 & Hj3). rewrite Hx.
    exists w3. repeat split; auto.
Qed.

(** C5.  In a [with xsync] statement whose exit finds a protocol error
    (the pop reports a code other than 0): when the block completed, the
    statement raises the [XError] of that code; when the block raised,
    the [XError] is logged and dropped and the statement raises the
    exception of the block. *)
Theorem xsync_exit_policy {A} (block : M X A) (w w2 : world X) (r : outcome A) :
  0 <= depth w ->
  block (snd (Xenter cfg sys w)) = (r, w2) ->
  0 <= depth w2 ->
  popped true w2 <> 0 ->
  match r with
  | Ret _ =>
      exists msg w0 w3,
        xsync cfg sys block w = (Raise (XError msg), w3)
        /\ get_X_error sys (AInt (popped true w2)) w0 = (Ret msg, w3)
  | Raise e =>
      exists j w3,
        xsync cfg sys block w = (Raise e, w3)
        /\ journal w3 = j ++ [Log Debug (ignoring_text e) []]
        /\ count_pop (journal w3) = S (count_pop (journal w2))
  end.
Proof.
  intros Hd Hb Hd2 Hcode. destruct (Xenter_spec w Hd) as (w1 & He & _).
  rewrite He in Hb. cbn [snd] in Hb.
  destruct (Xexit_spec true w2 Hd2) as (rx & w3 & Hx & _ & _ & Hj3 & _ & Hbad).
  destruct (Hbad Hcode) as (msg & w0 & -> & Hg).
  destruct r as [a|e]; unfold xsync, with_; unfold bind at 1; rewrite He, Hb.
  - unfold bind at 1. unfold XSyncContext_exit. unfold bind at 1.
    unfold try_except. rewrite Hx. cbn. eauto.
  - unfold XSyncContext_exit. unfold bind at 1. unfold try_except. rewrite Hx.
    cbn [is_XError]. unfold log, emit, ret. cbn [depth xerror_to_name display journal].
    exists (journal w3). eexists. split; [reflexivity|]. split; [reflexivity|].
    cbn [journal]. rewrite count_pop_app, <- (count_pop_native (journal w3)), Hj3,
      count_pop_app, count_pop_native, count_pop_exit_calls. cbn. lia.
Qed.

(** ** Scenarios *)

Lemma exit_calls_unsynced (w : world X) :
  exit_calls false w = [TrapPop (popped false w)].
Proof.
  unfold exit_calls, exit_flushes. rewrite andb_false_r. reflexivity.
Qed.

(** C6, as the code has it.  Three nested [call_unsynced] from depth 0,
    the exit of the innermost finding an error code: none of the three
    exits flushes (an unsynced exit never does, also at depth 0), each
    pops its trap, and the outermost caller sees one [XError]. *)
Theorem nested_call_unsynced_never_flushes {A} (fn : M X A) (w w4 : world X) (a : A) :
  depth w = 0 ->
  fn (snd ((Xenter cfg sys ;;; Xenter cfg sys ;;; Xenter cfg sys) w)) = (Ret a, w4) ->
  depth w4 = 3 ->
  popped false w4 <> 0 ->
  exists msg c2 c1 w',
    call_unsynced cfg sys (call_unsynced cfg sys (call_unsynced cfg sys fn)) w
      = (Raise (XError msg), w')
    /\ depth w' = 0
    /\ native (journal w')
       = native (journal w4) ++ [TrapPop (popped false w4); TrapPop c2; TrapPop c1]
    /\ count_flush (journal w') = count_flush (journal w4)
    /\ exists w0 w5 : world X,
         get_X_error sys (AInt (popped false w4)) w0 = (Ret msg, w5).
Proof.
  intros Hd Hf Hd4 Hcode.
  destruct (Xenter_spec w) as (w1 & He1 & Hd1 & _); [lia|].
  destruct (Xenter_spec w1) as (w2 & He2 & Hd2 & _); [lia|].
  destruct (Xenter_spec w2) as (w3 & He3 & Hd3 & _); [lia|].
  unfold bind in Hf. rewrite He1, He2, He3 in Hf. cbn [snd] in Hf.
  unfold call_unsynced.
  destruct (_call_returns false fn w2 w3 w4 a He3 Hf) as (r & w5 & Hc5 & Hd5 & _ & Hj5 & _ & Hbad);
    [lia|].
  destruct (Hbad Hcode) as (msg & w0 & -> & Hmsg).
  destruct (_call_raising false _ w1 w2 w5 (XError msg) He2 Hc5 eq_refl)
    as (w6 & Hc6 & Hd6 & _ & Hj6); [lia|].
  destruct (_call_raising false _ w w1 w6 (XError msg) He1 Hc6 eq_refl)
    as (w7 & Hc7 & Hd7 & _ & Hj7); [lia|].
  rewrite !exit_calls_unsynced in *.
  exists msg, (popped false w5), (popped false w6), w7.
  split; [exact Hc7|]. split; [lia|].
  assert (Hj : native (journal w7) = native (journal w4)
            ++ [TrapPop (popped false w4); TrapPop (popped false w5); TrapPop (popped false w6)]).
  { rewrite Hj7, Hj6, Hj5, <- !app_assoc. reflexivity. }
  split; [exact Hj|]. split; [|exists w0, w5; exact Hmsg].
  flushes_from Hj. cbn. lia.
Qed.

(** C7, as the code has it.  [assert_out] is a bare [assert]: at a depth
    other than 0 it raises [AssertionError], at depth 0 it returns; in
    neither case does it log or change anything. *)
Theorem assert_out_asserts (w : world X) :
  assert_out w = (if depth w =? 0 then Ret tt else Raise AssertionError, w).
Proof.
  unfold assert_out, bind, get_depth, assert_. destruct (depth w =? 0); reflexivity.
Qed.

Lemma swallow_unsynced_flushes {A} (fn : M X A) (w : world X) :
  count_flush (journal (snd (swallow_unsynced cfg sys fn w)))
  = count_flush (journal (snd (call_unsynced cfg sys fn w))).
Proof.
  unfold swallow_unsynced, try_except. unfold bind at 1.
  destruct (call_unsynced cfg sys fn w) as [[a|e] w3]; cbn [snd]; [reflexivity|].
  destruct (is_XError e); [|reflexivity].
  unfold bind, log, emit, ret. cbn [snd journal].
  rewrite count_flush_app. cbn. lia.
Qed.

(** C8, as the code has it.  With [XPRA_SYNCHRONIZE] off, which is the
    default, [call] is [call_unsynced] and [swallow] is
    [swallow_unsynced]: they exit with [need_sync] false, and whatever
    the function did and at whatever depth, their exit adds no flush. *)
Theorem default_call_is_unsynced {A} (fn : M X A) (w w2 : world X) (r : outcome A) :
  XPRA_SYNCHRONIZE cfg = false ->
  0 <= depth w ->
  fn (snd (Xenter cfg sys w)) = (r, w2) ->
  0 <= depth w2 ->
  call cfg sys fn = _call cfg sys false fn
  /\ swallow cfg sys fn = swallow_unsynced cfg sys fn
  /\ count_flush (journal (snd (call cfg sys fn w))) = count_flush (journal w2)
  /\ count_flush (journal (snd (swallow cfg sys fn w))) = count_flush (journal w2).
Proof.
  intros Hoff Hd Hf Hd2. unfold call, swallow. rewrite Hoff.
  split; [reflexivity|]. split; [reflexivity|].
  destruct (Xenter_spec w Hd) as (w1 & He & _).
  rewrite He in Hf. cbn [snd] in Hf.
  rewrite swallow_unsynced_flushes.
  assert (Hc : count_flush (journal (snd (call_unsynced cfg sys fn w)))
               = count_flush (journal w2)).
  { unfold call_unsynced. destruct r as [a|e].
    - destruct (_call_returns false fn w w1 w2 a He Hf Hd2) as (r & w3 & -> & _ & _ & Hj & _).
      cbn [snd]. rewrite exit_calls_unsynced in Hj. flushes_from Hj. cbn. lia.
    - destruct (is_Exception e) eqn:Hexc.
      + destruct (_call_raising false fn w w1 w2 e He Hf Hexc Hd2) as (w3 & -> & _ & _ & Hj).
        cbn [snd]. rewrite exit_calls_unsynced in Hj. flushes_from Hj. cbn. lia.
      + rewrite (_call_not_caught false fn w w1 w2 e He Hf Hexc). reflexivity. }
  split; exact Hc.
Qed.

(** ** The name cache *)

Lemma add_error_names_cons (nc : string * Z) (cs : list (string * Z))
    (names : gmap Z string) :
  add_error_names (nc :: cs) names
  = add_error_names cs
      (if is_error_name (fst nc) then <[snd nc := fst nc]> names else names).
Proof. reflexivity. Qed.

(** An entry of the dict after the loop was there before or comes from
    an error constant. *)
Lemma add_error_names_origin (cs : list (string * Z)) :
  forall (names : gmap Z string) (code : Z) (n : string),
    add_error_names cs names !! code = Some n ->
    names !! code = Some n \/ (In (n, code) cs /\ is_error_name n = true).
Proof.
  induction cs as [|[name c] cs IH]; intros names code n Hl.
  - left. exact Hl.
  - rewrite add_error_names_cons in Hl. cbn [fst snd] in Hl.
    apply IH in Hl. destruct Hl as [Hl|[Hin Hn]]; [|right; split; [right|]; assumption].
    destruct (is_error_name name) eqn:Hname; [|left; exact Hl].
    destruct (decide (c = code)) as [->|Hne].
    + rewrite lookup_insert_eq in Hl. injection Hl as <-.
      right. split; [left; reflexivity|exact Hname].
    + rewrite lookup_insert_ne in Hl by exact Hne. left. exact Hl.
Qed.

Lemma add_error_names_keeps (cs : list (string * Z)) :
  forall (names : gmap Z string) (code : Z),
    is_Some (names !! code) -> is_Some (add_error_names cs names !! code).
Proof.
  induction cs as [|[name c] cs IH]; intros names code Hs; [exact Hs|].
  rewrite add_error_names_cons. cbn [fst snd]. apply IH.
  destruct (is_error_name name); [|exact Hs].
  destruct (decide (c = code)) as [->|Hne].
  - rewrite lookup_insert_eq. eauto.
  - rewrite lookup_insert_ne by exact Hne. exact Hs.
Qed.

(** The code of an error constant ends up mapped to an error constant of
    that code. *)
Lemma add_error_names_finds (cs : list (string * Z)) :
  forall (names : gmap Z string) (code : Z) (name : string),
    In (name, code) cs -> is_error_name name = true ->
    exists n, add_error_names cs names !! code = Some n
      /\ In (n, code) cs /\ is_error_name n = true.
Proof.
  induction cs as [|[name0 c] cs IH]; intros names code name Hin Hname; [destruct Hin|].
  rewrite add_error_names_cons. cbn [fst snd].
  destruct Hin as [Heq|Hin].
  - injection Heq as -> ->. rewrite Hname.
    destruct (add_error_names_keeps cs (<[code := name]> names) code) as [n Hn].
    { rewrite lookup_insert_eq. eauto. }
    exists n. split; [exact Hn|].
    apply add_error_names_origin in Hn. destruct Hn as [Hn|[Hn1 Hn2]].
    + rewrite lookup_insert_eq in Hn. injection Hn as <-.
      split; [left; reflexivity|exact Hname].
    + split; [right; exact Hn1|exact Hn2].
  - destruct (IH (if is_error_name name0 then <[c := name0]> names else names)
                 code name Hin Hname) as (n & Hn & Hin' & Hn').
    exists n. split; [exact Hn|]. split; [right; exact Hin'|exact Hn'].
Qed.

Lemma error_name_not_empty (name : string) :
  is_error_name name = true -> String.eqb name "" = false.
Proof. destruct name; [discriminate|reflexivity]. Qed.

(** [get_X_error] on an int, from what its block did. *)
Lemma get_X_error_of_body (code : Z) (w w1 : world X) (r : outcome string) :
  get_X_error_body sys code w = (r, w1) ->
  exists w', get_X_error sys (AInt code) w
             = (Ret (match r with Ret name => name | Raise _ => str_int code end), w').
Proof.
  intros Hb. unfold get_X_error, with_. unfold bind at 1. unfold bind at 1.
  unfold ret at 1. rewrite Hb. destruct r as [name|e]; cbn; eauto.
Qed.

(** C9.  [get_X_error] on an int code.  When the constants cannot be
    imported it returns [str(code)].  When they can: a code in the cache
    (built on first use from the [Success] and [Bad*] constants) resolves
    to its cached name, in particular the code of an error constant to
    that constant's name; a code that is not in the cache resolves to the
    text the bindings give, and to [str(code)] when asking them fails.
    It never raises. *)
Theorem get_X_error_resolution (code : Z) (w : world X) :
  (forall e, constants sys = Raise e ->
     exists w', get_X_error sys (AInt code) w = (Ret (str_int code), w'))
  /\ (forall cs, constants sys = Ret cs ->
      (forall name, cached_names cs (xerror_to_name w) !! code = Some name ->
         name <> "" ->
         exists w', get_X_error sys (AInt code) w = (Ret name, w'))
      /\ (forall name, xerror_to_name w = ∅ ->
            In (name, code) cs -> is_error_name name = true ->
            (forall name', In (name', code) cs -> is_error_name name' = true ->
               name' = name) ->
            exists w', get_X_error sys (AInt code) w = (Ret name, w'))
      /\ (cached_names cs (xerror_to_name w) !! code = None ->
          (forall text, get_error_text sys code = Ret text ->
             exists w', get_X_error sys (AInt code) w = (Ret text, w'))
          /\ (forall e, get_error_text sys code = Raise e ->
                exists w', get_X_error sys (AInt code) w = (Ret (str_int code), w')))).
Proof.
  split.
  - intros e He.
    apply (get_X_error_of_body code w w (Raise e)).
    unfold get_X_error_body, bind, answer. rewrite He. reflexivity.
  - intros cs Hcs.
    pose proof (get_X_error_body_eval cs code w Hcs) as Hb.
    assert (Hhit : forall name, cached_names cs (xerror_to_name w) !! code = Some name ->
              name <> "" ->
              exists w', get_X_error sys (AInt code) w = (Ret name, w')).
    { intros name Hl Hne. rewrite Hl in Hb.
      destruct (String.eqb_spec name ""); [contradiction|].
      apply get_X_error_of_body in Hb. exact Hb. }
    split; [exact Hhit|]. split.
    + intros name Hempty Hin Hname Huniq.
      destruct (add_error_names_finds cs (<[0 := "OK"]> ∅) code name Hin Hname)
        as (n & Hn & Hin' & Hn').
      rewrite (Huniq n Hin' Hn') in Hn.
      apply Hhit.
      * unfold cached_names. rewrite Hempty.
        rewrite bool_decide_eq_true_2 by reflexivity. exact Hn.
      * intros ->. discriminate Hname.
    + intros Hmiss. rewrite Hmiss in Hb. split.
      * intros text Ht. rewrite Ht in Hb. apply get_X_error_of_body in Hb. exact Hb.
      * intros e Ht. rewrite Ht in Hb. apply get_X_error_of_body in Hb. exact Hb.
Qed.

(** ** [verify_sync] *)

Lemma for_each_emit {B} (g : B -> event) (l : list B) (w : world X) :
  for_each l (fun v => emit (g v)) w = (Ret tt, logged w (map g l)).
Proof.
  revert w. induction l as [|v l IH]; intros w.
  - unfold logged. cbn. rewrite app_nil_r. destruct w; reflexivity.
  - cbn [for_each]. unfold bind, emit at 1. rewrite IH.
    unfold logged. cbn. rewrite <- app_assoc. reflexivity.
Qed.

Lemma for_each_frames (frames : list (list string)) (w : world X) :
  for_each frames (fun x => for_each x (fun v => log_error " %s" [v])) w
  = (Ret tt, logged w (flat_map (fun x => map (fun v => Log Error " %s" [v]) x) frames)).
Proof.
  revert w. induction frames as [|x frames IH]; intros w.
  - unfold logged. cbn. rewrite app_nil_r. destruct w; reflexivity.
  - cbn [for_each flat_map]. unfold bind. unfold log_error.
    rewrite (for_each_emit (fun v => Log Error " %s" [v])).
    unfold log_error in IH. rewrite IH.
    unfold logged. cbn. rewrite <- app_assoc. reflexivity.
Qed.

(** Inside a trap [verify_sync] does nothing. *)
Lemma verify_sync_managed (args : list pyval) (w : world X) :
  0 < depth w -> verify_sync sys args w = (Ret tt, w).
Proof.
  intros Hd. unfold verify_sync, bind, get_depth.
  destruct (Z.leb_spec (depth w) 0); [lia|]. reflexivity.
Qed.

(** Outside of one it logs at error level and returns, unless formatting
    the first argument raises, which nothing catches. *)
Lemma verify_sync_unmanaged (args : list pyval) (w : world X) :
  depth w <= 0 ->
  verify_sync sys args w =
    match args with
    | [] => (Ret tt, logged w (unmanaged_log :: stack_log sys))
    | a0 :: _ =>
        match percent_s a0 with
        | inr fmt => (Ret tt, logged w (unmanaged_log :: Log Error fmt [] :: stack_log sys))
        | inl e => (Raise e, logged w [unmanaged_log])
        end
    end.
Proof.
  intros Hd. unfold verify_sync. unfold bind at 1. unfold get_depth at 1.
  destruct (Z.leb_spec (depth w) 0); [|lia]. cbn [when].
  unfold bind at 1. unfold log_error at 1, emit at 1.
  unfold bind at 1.
  destruct args as [|a0 rest].
  - unfold ret at 1. rewrite for_each_frames. unfold logged, stack_log. cbn.
    rewrite <- app_assoc. reflexivity.
  - destruct (percent_s a0) as [e|fmt].
    + reflexivity.
    + unfold log_error at 1, emit at 1. rewrite for_each_frames.
      unfold logged, stack_log. cbn. rewrite <- !app_assoc. reflexivity.
Qed.

Lemma verify_sync_returns (args : list pyval) (w : world X) :
  formats args ->
  exists l, verify_sync sys args w = (Ret tt, logged w l)
    /\ (0 < depth w -> l = [])
    /\ (depth w <= 0 -> exists l', l = unmanaged_log :: l' /\ incl (stack_log sys) l').
Proof.
  intros Hf. destruct (Z.lt_ge_cases 0 (depth w)) as [Hpos|Hneg].
  - exists []. rewrite (verify_sync_managed args w Hpos). unfold logged.
    rewrite app_nil_r. split; [destruct w; reflexivity|]. split; [auto|lia].
  - rewrite (verify_sync_unmanaged args w Hneg). destruct args as [|a0 rest].
    + eexists. split; [reflexivity|]. split; [lia|].
      intros _. eexists. split; [reflexivity|]. apply incl_refl.
    + destruct Hf as [fmt ->]. eexists. split; [reflexivity|]. split; [lia|].
      intros _. eexists. split; [reflexivity|]. apply incl_tl, incl_refl.
Qed.

End Properties.

(** * The properties on the concrete display *)

(** ** Calls under protection *)

(** A function that raises an ordinary exception: the trap is popped, with
    a flush first when synced, and the [XError] of the pending code 3 is
    dropped in favour of the exception of the function. *)
Example call_pops_on_ValueError :
  _call default_config x11_host true (raise (A := unit) (ProgramError "ValueError"))
        (idle [3])
  = (Raise (ProgramError "ValueError"),
     World 0 (cached_names x11_constants ∅) []
       [TrapPush; Log Debug "_call%s" []; Log Debug "_call%s %s" []; Flush; TrapPop 3;
        init_log;
        Log Debug "XError 'XError: BadWindow' detected while already in unwind; discarding" []]).
Proof. vm_compute. reflexivity. Qed.

(** C1, where the code departs from it.  A function that raises
    [KeyboardInterrupt], which [except Exception] does not catch: [_call]
    makes no exit, so the trap that was pushed is never popped and the
    depth stays at 1. *)
Theorem call_leaks_trap_on_KeyboardInterrupt (need_sync : bool) :
  _call default_config x11_host need_sync
        (raise (A := unit) (SystemExiting "KeyboardInterrupt")) (idle [])
  = (Raise (SystemExiting "KeyboardInterrupt"), World 1 ∅ [] [TrapPush]).
Proof. destruct need_sync; vm_compute; reflexivity. Qed.

(** ** Sequences *)

Lemma flushes_are_synced_exits_at_zero_witness :
  (forall need_sync (w0 : world (list Z)), 0 <= depth w0 ->
     count_flush (journal (snd (Xexit default_config x11_host need_sync w0)))
     = Nat.add (count_flush (journal w0))
         (if (depth (snd (Xexit default_config x11_host need_sync w0)) =? 0) && need_sync
          then 1%nat else 0%nat))
  /\ count_flush (journal (snd (run_calls default_config x11_host two_regions (idle [3]))))
     = Nat.add (count_flush (journal (idle [3])))
               (synced_exits_at_zero (depth (idle [3])) two_regions)
  /\ le (synced_exits_at_zero (depth (idle [3])) two_regions)
        (exits_at_zero (depth (idle [3])) two_regions).
Proof.
  apply (flushes_are_synced_exits_at_zero default_config x11_host two_regions (idle [3])).
  - reflexivity.
  - simpl. lia.
Defined.

(** The run behind it: one flush for two outermost regions and three exits. *)
Example two_regions_run :
  native (journal (snd (run_calls default_config x11_host two_regions (idle [3]))))
  = [TrapPush; TrapPush; TrapPop 3; Flush; TrapPop 0; TrapPush; TrapPop 0].
Proof. vm_compute. reflexivity. Qed.

Lemma depth_restored_witness :
  depth (snd (run_calls default_config x11_host inner_raises (idle [3]))) = depth (idle [3])
  /\ Forall returned_or_XError (fst (run_calls default_config x11_host inner_raises (idle [3])))
  /\ (forall need_sync (w0 : world (list Z)) e, 0 <= depth w0 ->
        fst (Xexit default_config x11_host need_sync w0) = Raise e ->
        depth (snd (Xexit default_config x11_host need_sync w0)) = depth w0 - 1).
Proof.
  apply (depth_restored default_config x11_host inner_raises (idle [3])).
  - reflexivity.
  - simpl. lia.
Defined.

(** The inner exit of that run raises, the depth is 0 at the end. *)
Example inner_raises_run :
  fst (run_calls default_config x11_host inner_raises (idle [3]))
  = [Ret tt; Ret tt; Raise (XError "BadWindow"); Ret tt]
  /\ depth (snd (run_calls default_config x11_host inner_raises (idle [3]))) = 0.
Proof. vm_compute. split; reflexivity. Qed.

(** ** The swallow region *)

(** C4, where the code departs from it.  A [ValueError] raised inside
    [with xswallow] does not reach the caller: the statement completes. *)
Lemma xswallow_drops_ValueError :
  fst (xswallow default_config x11_host (raise (A := unit) (ProgramError "ValueError"))
         (idle []))
  = Ret None
  /\ fst (xswallow default_config x11_host (raise (A := unit) (ProgramError "ValueError"))
            (idle []))
     <> Raise (ProgramError "ValueError").
Proof. vm_compute. split; [reflexivity|discriminate]. Qed.

Lemma xswallow_suppresses_everything_witness :
  exists w3,
    xswallow default_config x11_host (raise (A := unit) (ProgramError "ValueError")) (idle [3])
      = (Ret (suppressed (Raise (ProgramError "ValueError"))), w3)
    /\ depth w3 = depth (World 1 ∅ [3] [TrapPush]) - 1
    /\ native (journal w3)
       = native (journal (World 1 ∅ [3] [TrapPush]))
         ++ exit_calls true (World 1 ∅ [3] [TrapPush])
    /\ count_pop (journal w3) = S (count_pop (journal (World 1 ∅ [3] [TrapPush]))).
Proof.
  apply (xswallow_suppresses_everything default_config x11_host
           (raise (ProgramError "ValueError")) (idle [3]) (World 1 ∅ [3] [TrapPush])).
  - simpl. lia.
  - vm_compute. reflexivity.
  - simpl. lia.
Defined.

(** ** The strict region *)

Lemma xsync_exit_policy_witness :
  exists j w3,
    xsync default_config x11_host (raise (A := unit) (ProgramError "ValueError")) (idle [3])
      = (Raise (ProgramError "ValueError"), w3)
    /\ journal w3 = j ++ [Log Debug (ignoring_text (ProgramError "ValueError")) []]
    /\ count_pop (journal w3) = S (count_pop (journal (World 1 ∅ [3] [TrapPush]))).
Proof.
  apply (xsync_exit_policy default_config x11_host
           (raise (A := unit) (ProgramError "ValueError")) (idle [3])
           (World 1 ∅ [3] [TrapPush]) (Raise (ProgramError "ValueError"))).
  - simpl. lia.
  - vm_compute. reflexivity.
  - simpl. lia.
  - vm_compute. discriminate.
Defined.

(** The entry logged for the dropped [XError], as the f-string writes it. *)
Example xsync_double_fault_entry :
  List.last (journal (snd (xsync default_config x11_host
                             (raise (A := unit) (ProgramError "ValueError")) (idle [3]))))
            PrintStack
  = Log Debug
      "Ignoring <class 'ValueError'> during Xexit, <class 'ValueError'> will be raised instead"
      [].
Proof. vm_compute. reflexivity. Qed.

(** A block that completes, its request failing with [BadWindow]: the
    exit raises the [XError]. *)
Example xsync_raises_BadWindow :
  fst (xsync default_config x11_host (failing_request 3) (idle []))
  = Raise (XError "BadWindow").
Proof. vm_compute. reflexivity. Qed.

(** ** Three nested unsynced calls *)

(** C6, where the code departs from it.  The exit that brings the depth
    back to 0 pops without a flush: the whole run has no flush at all. *)
Lemma three_deep_has_no_flush :
  fst (three_deep (idle [])) = Raise (XError "BadAlloc")
  /\ native (journal (snd (three_deep (idle []))))
     = [TrapPush; TrapPush; TrapPush; TrapPop 11; TrapPop 0; TrapPop 0]
  /\ count_flush (journal (snd (three_deep (idle [])))) <> 1%nat.
Proof. vm_compute. repeat split; discriminate. Qed.

Lemma nested_call_unsynced_never_flushes_witness :
  exists msg c2 c1 w',
    call_unsynced default_config x11_host
      (call_unsynced default_config x11_host
         (call_unsynced default_config x11_host (failing_request 11))) (idle [])
      = (Raise (XError msg), w')
    /\ depth w' = 0
    /\ native (journal w')
       = native (journal (World 3 ∅ [11] [TrapPush; TrapPush; TrapPush]))
         ++ [TrapPop (popped false (World 3 ∅ [11] [TrapPush; TrapPush; TrapPush]));
             TrapPop c2; TrapPop c1]
    /\ count_flush (journal w')
       = count_flush (journal (World 3 ∅ [11] [TrapPush; TrapPush; TrapPush]))
    /\ exists w0 w5 : world (list Z),
         get_X_error x11_host
           (AInt (popped false (World 3 ∅ [11] [TrapPush; TrapPush; TrapPush]))) w0
         = (Ret msg, w5).
Proof.
  apply (nested_call_unsynced_never_flushes default_config x11_host
           (failing_request 11) (idle []) (World 3 ∅ [11] [TrapPush; TrapPush; TrapPush]) tt).
  - reflexivity.
  - vm_compute. reflexivity.
  - reflexivity.
  - vm_compute. discriminate.
Defined.

(** ** [assert_out] *)

(** C7, where the code departs from it.  At depth 2 [assert_out] raises
    [AssertionError], and the journal stays empty: nothing is logged. *)
Lemma assert_out_raises_at_depth_2 :
  assert_out (World 2 ∅ ([] : list Z) []) = (Raise AssertionError, World 2 ∅ [] [])
  /\ fst (assert_out (World 2 ∅ ([] : list Z) [])) <> Ret tt.
Proof. vm_compute. split; [reflexivity|discriminate]. Qed.

(** ** The generic entry points *)

(** C8, where the code departs from it.  Under the default configuration
    [call] and [swallow] at depth 0 do not flush, while the synced
    variants do. *)
Lemma default_call_does_not_flush :
  count_flush (journal (snd (call default_config x11_host (ret tt) (idle [])))) = 0%nat
  /\ count_flush (journal (snd (swallow default_config x11_host (ret tt) (idle [])))) = 0%nat
  /\ count_flush (journal (snd (call_synced default_config x11_host (ret tt) (idle [])))) = 1%nat
  /\ count_flush (journal (snd (swallow_synced default_config x11_host (ret tt) (idle [])))) = 1%nat.
Proof. vm_compute. repeat split. Qed.

Lemma default_call_is_unsynced_witness :
  call default_config x11_host (ret tt) = _call default_config x11_host false (ret tt)
  /\ swallow default_config x11_host (ret tt)
     = swallow_unsynced default_config x11_host (ret tt)
  /\ count_flush (journal (snd (call default_config x11_host (ret tt) (idle []))))
     = count_flush (journal (World 1 ∅ ([] : list Z) [TrapPush]))
  /\ count_flush (journal (snd (swallow default_config x11_host (ret tt) (idle []))))
     = count_flush (journal (World 1 ∅ ([] : list Z) [TrapPush])).
Proof.
  apply (default_call_is_unsynced default_config x11_host (ret tt) (idle [])
           (World 1 ∅ [] [TrapPush]) (Ret tt)).
  - reflexivity.
  - simpl. lia.
  - vm_compute. reflexivity.
  - simpl. lia.
Defined.

(** ** Name resolution *)

Lemma get_X_error_resolution_witness :
  (exists w', get_X_error bare_host (AInt 11) (idle []) = (Ret "11", w'))
  /\ (exists w', get_X_error x11_host (AInt 11) (idle []) = (Ret "BadAlloc", w'))
  /\ (exists w', get_X_error x11_host (AInt 0) (idle []) = (Ret "Success", w'))
  /\ (exists w', get_X_error x11_host (AInt 99) (idle []) = (Ret "error 99", w')).
Proof.
  split; [|split; [|split]].
  - apply (proj1 (get_X_error_resolution bare_host 11 (idle [])) (ProgramError "ImportError")).
    reflexivity.
  - apply (proj1 (proj2 (proj2 (get_X_error_resolution x11_host 11 (idle []))
                          x11_constants eq_refl)) "BadAlloc").
    + reflexivity.
    + vm_compute. tauto.
    + reflexivity.
    + intros name' Hin Hname. vm_compute in Hin.
      repeat (destruct Hin as [Heq|Hin]; [injection Heq; intros; try discriminate; subst; try reflexivity|]);
        try contradiction.
  - apply (proj1 (proj2 (get_X_error_resolution x11_host 0 (idle []))
                   x11_constants eq_refl) "Success").
    + vm_compute. reflexivity.
    + discriminate.
  - apply (proj1 (proj2 (proj2 (proj2 (get_X_error_resolution x11_host 99 (idle []))
                                 x11_constants eq_refl)) eq_refl) "error 99").
    vm_compute. reflexivity.
Defined.

(** ** [verify_sync] *)

(** C10, where the code departs from it.  Outside of any trap, a first
    argument that is a pair makes the [%] operator raise [TypeError]
    after the first log entry; [verify_sync] does not return. *)
Theorem verify_sync_raises_on_pair :
  verify_sync x11_host [PTuple [AInt 1; AInt 2]] (idle [])
  = (Raise (TypeError "not all arguments converted during string formatting"),
     World 0 ∅ [] [Log Error "Error: unmanaged X11 context" []]).
Proof. vm_compute. reflexivity. Qed.

(** With a message as first argument it logs and returns. *)
Example verify_sync_logs_message :
  verify_sync x11_host [PAtom (AStr "XGetAtomName")] (idle [])
  = (Ret tt,
     World 0 ∅ []
       [Log Error "Error: unmanaged X11 context" [];
        Log Error " XGetAtomName" [];
        Log Error " %s" ["  File a.py, line 1, in f"];
        Log Error " %s" ["    g()"];
        Log Error " %s" ["  File a.py, line 2, in g"];
        Log Error " %s" ["    verify_sync()"]]).
Proof. vm_compute. reflexivity. Qed.

(** * Further properties of the module *)

Section Further.
Context {X : Type} `{Gdk X}.
Variable cfg : config.
Variable sys : host.

(** ** Exact journals of the primitives *)

Lemma world_eta (w : world X) :
  World (depth w) (xerror_to_name w) (display w) (journal w) = w.
Proof. destruct w; reflexivity. Qed.

Lemma verify_main_thread_eval (w : world X) :
  verify_main_thread cfg sys w = (Ret tt, logged w (thread_log cfg sys)).
Proof.
  unfold verify_main_thread, thread_log, logged.
  destruct (VERIFY_MAIN_THREAD cfg); cbn [andb].
  - destruct (is_main_thread sys); cbn [negb when].
    + unfold ret. rewrite app_nil_r, world_eta. reflexivity.
    + unfold bind, log_error, emit. cbn [depth xerror_to_name display journal].
      rewrite <- app_assoc. reflexivity.
  - unfold ret. rewrite app_nil_r, world_eta. reflexivity.
Qed.

(** [Xenter] at a depth that is not negative, entry by entry. *)
Lemma Xenter_eval (w : world X) :
  0 <= depth w ->
  Xenter cfg sys w
  = (Ret tt,
     World (depth w + 1) (xerror_to_name w) (error_trap_push (display w))
       (journal w ++ thread_log cfg sys ++ [TrapPush]
        ++ sync_log cfg "X11trap.enter at level %i" [str_int (depth w)]
        ++ nested_log cfg sys (depth w))).
Proof.
  intros Hd. unfold Xenter. unfold bind at 1. unfold get_depth at 1.
  unfold bind at 1. destruct (Z.leb_spec 0 (depth w)); [|lia]. cbn [assert_]. unfold ret at 1.
  unfold bind at 1. rewrite verify_main_thread_eval.
  unfold bind at 1. unfold on_display at 1, logged. cbn [depth xerror_to_name display journal].
  unfold bind at 1. unfold sync_log, nested_log.
  destruct (XPRA_LOG_SYNC cfg); cbn [when];
    destruct (LOG_NESTED_XTRAP cfg && (0 <? depth w)); cbn [when].
  - unfold log at 1, emit at 1. unfold bind at 1. unfold log.
    rewrite (for_each_emit (fun _ => Log Debug "%s" [])).
    unfold logged, set_depth. cbn [depth xerror_to_name display journal].
    rewrite <- !app_assoc. reflexivity.
  - unfold log at 1, emit at 1. unfold bind at 1. unfold ret at 1.
    unfold set_depth. cbn [depth xerror_to_name display journal].
    rewrite <- !app_assoc. rewrite app_nil_r. reflexivity.
  - unfold ret at 1. unfold bind at 1. unfold log.
    rewrite (for_each_emit (fun _ => Log Debug "%s" [])).
    unfold logged, set_depth. cbn [depth xerror_to_name display journal].
    rewrite <- !app_assoc. reflexivity.
  - unfold ret at 1. unfold bind at 1. unfold ret at 1.
    unfold set_depth. cbn [depth xerror_to_name display journal].
    rewrite <- !app_assoc. reflexivity.
Qed.

(** The assertions of [Xenter] and [Xexit] at a negative depth: nothing
    is done before they fail. *)
Lemma Xenter_negative (w : world X) :
  depth w < 0 -> Xenter cfg sys w = (Raise AssertionError, w).
Proof.
  intros Hd. unfold Xenter, bind, get_depth.
  destruct (Z.leb_spec 0 (depth w)); [lia|]. reflexivity.
Qed.

Lemma Xexit_negative (need_sync : bool) (w : world X) :
  depth w < 0 -> Xexit cfg sys need_sync w = (Raise AssertionError, w).
Proof.
  intros Hd. unfold Xexit, bind, get_depth.
  destruct (Z.leb_spec 0 (depth w)); [lia|]. reflexivity.
Qed.

(** [Xexit] when the pop reports no error, entry by entry. *)
Lemma Xexit_eval_clean (need_sync : bool) (w : world X) :
  0 <= depth w ->
  popped need_sync w = 0 ->
  Xexit cfg sys need_sync w
  = (Ret tt,
     World (depth w - 1) (xerror_to_name w)
       (snd (error_trap_pop (display_before_pop need_sync w)))
       (journal w
        ++ sync_log cfg "X11trap.exit at level %i, need_sync=%s"
             [str_int (depth w - 1); if need_sync then "True" else "False"]
        ++ exit_calls need_sync w)).
Proof.
  intros Hd Hz. unfold Xexit. unfold bind at 1. unfold get_depth at 1.
  unfold bind at 1. destruct (Z.leb_spec 0 (depth w)); [|lia]. cbn [assert_]. unfold ret at 1.
  unfold bind at 1. unfold set_depth at 1.
  unfold exit_calls. unfold popped, display_before_pop, exit_flushes in *.
  unfold bind at 1. unfold sync_log.
  destruct (XPRA_LOG_SYNC cfg); cbn [when];
    destruct ((depth w - 1 =? 0) && need_sync); cbn [when];
    unfold log, emit, on_display, ret, bind; cbn [depth xerror_to_name display journal];
    destruct (error_trap_pop _) as [code x'] eqn:Hpop; cbn [fst snd] in *; subst code;
    cbn; rewrite <- ?app_assoc; reflexivity.
Qed.

(** ** Journals only grow *)

Lemma get_X_error_extends (xerror : atom) (w : world X) :
  exists l, journal (snd (get_X_error sys xerror w)) = journal w ++ l
            /\ native l = [].
Proof.
  destruct xerror as [s|code].
  - exists []. cbn. rewrite app_nil_r. auto.
  - unfold get_X_error, with_. unfold bind at 1. unfold bind at 1. unfold ret at 1.
    destruct (constants sys) as [cs|e] eqn:Hcs.
    + rewrite (get_X_error_body_eval sys cs code w Hcs).
      destruct (bool_decide (xerror_to_name w = ∅));
        destruct (cached_names cs (xerror_to_name w) !! code) as [name|];
        try destruct (get_error_text sys code) as [text|e];
        cbn; eexists;
        (split; [first [reflexivity
                       |symmetry; apply app_nil_r
                       |rewrite <- app_assoc; reflexivity]
                |reflexivity]).
    + unfold get_X_error_body, bind, answer. rewrite Hcs. cbn.
      eexists. split; reflexivity.
Qed.

Lemma native_nil_count_pop (l : list event) : native l = [] -> count_pop l = 0%nat.
Proof. intros Hl. rewrite <- count_pop_native, Hl. reflexivity. Qed.

(** What [Xexit] can do at all: return, fail its assertion, or raise
    [XError]. *)
Lemma Xexit_outcomes (need_sync : bool) (w : world X) :
  fst (Xexit cfg sys need_sync w) = Ret tt
  \/ fst (Xexit cfg sys need_sync w) = Raise AssertionError
  \/ exists msg, fst (Xexit cfg sys need_sync w) = Raise (XError msg).
Proof.
  destruct (Z.lt_ge_cases (depth w) 0) as [Hneg|Hd].
  - rewrite (Xexit_negative need_sync w Hneg). auto.
  - destruct (Xexit_spec cfg sys need_sync w Hd) as (r & w1 & -> & _ & _ & _ & Hok & Hbad).
    destruct (Z.eq_dec (popped need_sync w) 0) as [Hz|Hnz].
    + rewrite (Hok Hz). auto.
    + destruct (Hbad Hnz) as (msg & _ & -> & _). eauto.
Qed.

Lemma grows_ret {A} (a : A) : grows (X := X) (ret a).
Proof. intros w. exists []. cbn. rewrite app_nil_r. reflexivity. Qed.

Lemma grows_raise {A} (e : exn) : grows (X := X) (A := A) (raise e).
Proof. intros w. exists []. cbn. rewrite app_nil_r. reflexivity. Qed.

Lemma grows_emit (ev : event) : grows (X := X) (emit ev).
Proof. intros w. exists [ev]. reflexivity. Qed.

Lemma grows_on_display (f : X -> X) (ev : event) : grows (on_display f ev).
Proof. intros w. exists [ev]. reflexivity. Qed.

Lemma grows_set_depth (d : Z) : grows (X := X) (set_depth d).
Proof. intros w. exists []. cbn. rewrite app_nil_r. reflexivity. Qed.

Lemma grows_get_depth : grows (X := X) get_depth.
Proof. intros w. exists []. cbn. rewrite app_nil_r. reflexivity. Qed.

Lemma grows_bind {A B} (c : M X A) (k : A -> M X B) :
  grows c -> (forall a, grows (k a)) -> grows (bind c k).
Proof.
  intros Hc Hk w. unfold bind. destruct (Hc w) as (l1 & Hl1).
  destruct (c w) as [[a|e] w1]; cbn [snd] in *.
  - destruct (Hk a w1) as (l2 & Hl2). exists (l1 ++ l2).
    rewrite Hl2, Hl1, app_assoc. reflexivity.
  - exists l1. exact Hl1.
Qed.

Lemma grows_try_except {A} (body : M X A) (catches : exn -> bool)
    (handler : exn -> M X A) :
  grows body -> (forall e, grows (handler e)) -> grows (try_except body catches handler).
Proof.
  intros Hb Hh w. unfold try_except. destruct (Hb w) as (l1 & Hl1).
  destruct (body w) as [[a|e] w1]; cbn [snd] in *.
  - exists l1. exact Hl1.
  - destruct (catches e).
    + destruct (Hh e w1) as (l2 & Hl2). exists (l1 ++ l2).
      rewrite Hl2, Hl1, app_assoc. reflexivity.
    + exists l1. exact Hl1.
Qed.

Lemma grows_when (cond : bool) (c : M X unit) : grows c -> grows (when cond c).
Proof. intros Hc. destruct cond; [exact Hc|apply grows_ret]. Qed.

Lemma grows_assert (cond : bool) : grows (X := X) (assert_ cond).
Proof. destruct cond; [apply grows_ret|apply grows_raise]. Qed.

Lemma grows_get_X_error (xerror : atom) : grows (X := X) (get_X_error sys xerror).
Proof. intros w. destruct (get_X_error_extends xerror w) as (l & Hl & _). eauto. Qed.

Lemma grows_pop :
  grows (fun w : world X =>
           let (code, x) := error_trap_pop (display w) in
           (Ret code, World (depth w) (xerror_to_name w) x (journal w ++ [TrapPop code]))).
Proof. intros w. destruct (error_trap_pop (display w)) as [code x]. eexists. reflexivity. Qed.

Create HintDb grows.
#[local] Hint Resolve grows_ret grows_raise grows_emit grows_on_display grows_set_depth
  grows_get_depth grows_when grows_assert grows_get_X_error grows_pop : grows.

(** [Xexit] keeps what was in the journal. *)
Lemma Xexit_grows (need_sync : bool) : grows (Xexit cfg sys need_sync).
Proof.
  unfold Xexit, log, raise_XError.
  repeat (apply grows_bind; [auto with grows|intros]).
  destruct (_ =? 0); [auto with grows|].
  apply grows_bind; [auto with grows|intros; auto with grows].
Qed.

Lemma count_push_app (j1 j2 : list event) :
  count_push (j1 ++ j2) = (count_push j1 + count_push j2)%nat.
Proof. unfold count_push. rewrite List.filter_app, length_app. reflexivity. Qed.

Lemma count_push_native (j : list event) : count_push (native j) = count_push j.
Proof.
  unfold count_push, native. induction j as [|ev j IH]; [reflexivity|].
  destruct ev; cbn; auto.
Qed.

Lemma count_push_exit_calls (need_sync : bool) (w : world X) :
  count_push (exit_calls need_sync w) = 0%nat.
Proof. unfold exit_calls. destruct (exit_flushes _ _); reflexivity. Qed.

Lemma pops_after_exit (need_sync : bool) (w2 w3 : world X) :
  native (journal w3) = native (journal w2) ++ exit_calls need_sync w2 ->
  count_pop (journal w3) = S (count_pop (journal w2)).
Proof.
  intros Hj. rewrite <- (count_pop_native (journal w3)), Hj, count_pop_app,
    count_pop_native, count_pop_exit_calls. lia.
Qed.

Lemma flushes_after_exit (need_sync : bool) (w2 w3 : world X) :
  native (journal w3) = native (journal w2) ++ exit_calls need_sync w2 ->
  count_flush (journal w3)
  = Nat.add (count_flush (journal w2))
      (if exit_flushes (depth w2) need_sync then 1%nat else 0%nat).
Proof.
  intros Hj. rewrite <- (count_flush_native (journal w3)), Hj, count_flush_app,
    count_flush_native, count_flush_exit_calls. reflexivity.
Qed.

(** ** Calls under protection, path by path *)

(** X1.  When the function raises an exception deriving from
    [Exception], [_call] pops the trap exactly once, drops (and logs at
    debug level) the [XError] of a nonzero popped code, and raises the
    exception of the function. *)
Theorem call_exception_pops_once {A} (need_sync : bool) (fn : M X A)
    (w w2 : world X) (e : exn) :
  0 <= depth w ->
  fn (snd (Xenter cfg sys w)) = (Raise e, w2) ->
  is_Exception e = true ->
  0 <= depth w2 ->
  exists w3, _call cfg sys need_sync fn w = (Raise e, w3)
    /\ depth w3 = depth w2 - 1
    /\ count_pop (journal w3) = S (count_pop (journal w2))
    /\ (popped need_sync w2 <> 0 ->
        exists msg j, journal w3 = j ++ [Log Debug (unwind_text (XError msg)) []]).
Proof.
  intros Hd Hf Hexc Hd2. destruct (Xenter_spec cfg sys w Hd) as (w1 & He & _).
  rewrite He in Hf. cbn [snd] in Hf.
  unfold _call. unfold bind at 1. unfold try_except at 1.
  unfold bind at 1. rewrite He, Hf, Hexc.
  unfold bind at 1. unfold log at 1, emit at 1.
  unfold bind at 1. unfold log at 1, emit at 1. cbn [depth xerror_to_name display journal].
  set (w2' := World _ _ _ _).
  assert (Hu : undisturbed w2 w2').
  { subst w2'. unfold undisturbed; cbn. rewrite !native_app, !app_nil_r. auto. }
  destruct (exit_calls_undisturbed need_sync _ _ Hu) as (Hp & Hc & _).
  destruct Hu as (Hd2' & _ & Hj2').
  unfold bind at 1.
  destruct (guarded_exit_spec cfg sys need_sync unwind_text w2')
    as (w3 & Hg & Hd3 & _ & Hj3 & Hlog); [lia|].
  unfold unwind_text in Hg. rewrite Hg. unfold raise.
  exists w3. split; [reflexivity|]. split; [lia|]. split.
  - apply (pops_after_exit need_sync). rewrite Hj3, Hj2', Hc. reflexivity.
  - intros Hnz. apply Hlog. rewrite Hp. exact Hnz.
Qed.

(** X2.  When the function returns, [_call] pops the trap exactly once and
    then returns the value of the function if the popped code is 0, and
    otherwise raises the [XError] carrying the name that [get_X_error]
    resolves for that code. *)
Theorem call_returns_value_or_XError {A} (need_sync : bool) (fn : M X A)
    (w w2 : world X) (a : A) :
  0 <= depth w ->
  fn (snd (Xenter cfg sys w)) = (Ret a, w2) ->
  0 <= depth w2 ->
  exists r w3, _call cfg sys need_sync fn w = (r, w3)
    /\ depth w3 = depth w2 - 1
    /\ count_pop (journal w3) = S (count_pop (journal w2))
    /\ (popped need_sync w2 = 0 -> r = Ret a)
    /\ (popped need_sync w2 <> 0 ->
        exists msg w0, r = Raise (XError msg)
          /\ get_X_error sys (AInt (popped need_sync w2)) w0 = (Ret msg, w3)).
Proof.
  intros Hd Hf Hd2. destruct (Xenter_spec cfg sys w Hd) as (w1 & He & _).
  rewrite He in Hf. cbn [snd] in Hf.
  destruct (_call_returns cfg sys need_sync fn w w1 w2 a He Hf Hd2)
    as (r & w3 & Hc & Hd3 & _ & Hj3 & Hok & Hbad).
  exists r, w3. split; [exact Hc|]. split; [exact Hd3|].
  split; [exact (pops_after_exit need_sync w2 w3 Hj3)|]. split; assumption.
Qed.

Lemma error_entries_app (j1 j2 : list event) :
  error_entries (j1 ++ j2) = error_entries j1 ++ error_entries j2.
Proof. apply List.filter_app. Qed.

Lemma error_entries_sync_log (fmt : string) (args : list string) :
  error_entries (sync_log cfg fmt args) = [].
Proof. unfold sync_log. destruct (XPRA_LOG_SYNC cfg); reflexivity. Qed.

Lemma error_entries_exit_calls (need_sync : bool) (w : world X) :
  error_entries (exit_calls need_sync w) = [].
Proof. unfold exit_calls. destruct (exit_flushes _ _); reflexivity. Qed.

(** A call whose function returns and whose pop finds nothing, entry by
    entry. *)
Lemma _call_clean {A} (need_sync : bool) (fn : M X A) (w w1 w2 : world X) (a : A) :
  Xenter cfg sys w = (Ret tt, w1) ->
  fn w1 = (Ret a, w2) ->
  0 <= depth w2 ->
  popped need_sync w2 = 0 ->
  _call cfg sys need_sync fn w
  = (Ret a,
     World (depth w2 - 1) (xerror_to_name w2)
       (snd (error_trap_pop (display_before_pop need_sync w2)))
       (journal w2
        ++ sync_log cfg "X11trap.exit at level %i, need_sync=%s"
             [str_int (depth w2 - 1); if need_sync then "True" else "False"]
        ++ exit_calls need_sync w2)).
Proof.
  intros He Hf Hd2 Hz. unfold _call. unfold bind at 1. unfold try_except at 1.
  unfold bind at 1. rewrite He, Hf. unfold bind at 1.
  rewrite (Xexit_eval_clean need_sync w2 Hd2 Hz). reflexivity.
Qed.

Lemma swallow_spec {A} (need_sync : bool) (fn : M X A) (w w2 : world X)
    (r : outcome A) :
  0 <= depth w ->
  fn (snd (Xenter cfg sys w)) = (r, w2) ->
  0 <= depth w2 ->
  exists w3,
    try_except (_call cfg sys need_sync fn ;;; ret true) is_XError
      (fun _ => log "Ignoring X error on %s" [] ;;; ret false) w
    = (match r with
       | Ret _ => Ret (popped need_sync w2 =? 0)
       | Raise e => if is_XError e then Ret false else Raise e
       end, w3)
    /\ ((forall e, r = Raise e -> is_Exception e = true) ->
        depth w3 = depth w2 - 1
        /\ count_pop (journal w3) = S (count_pop (journal w2)))
    /\ (forall a, r = Ret a -> popped need_sync w2 = 0 ->
        error_entries (journal w3) = error_entries (journal w2)).
Proof.
  intros Hd Hf Hd2. destruct (Xenter_spec cfg sys w Hd) as (w1 & He & _).
  rewrite He in Hf. cbn [snd] in Hf.
  unfold try_except. unfold bind at 1.
  destruct r as [a|e].
  - destruct (Z.eq_dec (popped need_sync w2) 0) as [Hz|Hnz].
    + rewrite (_call_clean need_sync fn w w1 w2 a He Hf Hd2 Hz).
      apply Z.eqb_eq in Hz as Hb. rewrite Hb. cbn [ret].
      eexists. split; [reflexivity|]. cbn [depth journal]. split.
      * intros _. split; [reflexivity|].
        rewrite !count_pop_app, count_pop_exit_calls.
        rewrite (native_nil_count_pop (sync_log _ _ _));
          [lia|unfold sync_log; destruct (XPRA_LOG_SYNC cfg); reflexivity].
      * intros _ _ _. rewrite !error_entries_app, error_entries_sync_log,
          error_entries_exit_calls, !app_nil_r. reflexivity.
    + destruct (_call_returns cfg sys need_sync fn w w1 w2 a He Hf Hd2)
        as (rc & w3 & -> & Hd3 & _ & Hj3 & _ & Hbad).
      destruct (Hbad Hnz) as (msg & _ & -> & _).
      apply Z.eqb_neq in Hnz as Hb. rewrite Hb. cbn [is_XError].
      unfold bind, log, emit, ret. cbn [depth xerror_to_name display journal].
      eexists. split; [reflexivity|]. cbn [depth journal]. split.
      * intros _. split; [exact Hd3|].
        rewrite count_pop_app, (pops_after_exit need_sync w2 w3 Hj3). cbn. lia.
      * intros a0 _ Hz. apply Z.eqb_eq in Hz. congruence.
  - destruct (is_Exception e) eqn:Hexc.
    + destruct (_call_raising cfg sys need_sync fn w w1 w2 e He Hf Hexc Hd2)
        as (w3 & -> & Hd3 & _ & Hj3).
      destruct (is_XError e).
      * unfold bind, log, emit, ret. cbn [depth xerror_to_name display journal].
        eexists. split; [reflexivity|]. cbn [depth journal]. split.
        -- intros _. split; [exact Hd3|].
           rewrite count_pop_app, (pops_after_exit need_sync w2 w3 Hj3). cbn. lia.
        -- intros a Ha. discriminate Ha.
      * exists w3. split; [reflexivity|]. split.
        -- intros _. split; [exact Hd3|exact (pops_after_exit need_sync w2 w3 Hj3)].
        -- intros a Ha. discriminate Ha.
    + rewrite (_call_not_caught cfg sys need_sync fn w w1 w2 e He Hf Hexc).
      assert (Hx : is_XError e = false) by (destruct e; try reflexivity; discriminate Hexc).
      rewrite Hx. exists w2. split; [reflexivity|]. split.
      * intros Hall. rewrite (Hall e eq_refl) in Hexc. discriminate Hexc.
      * intros a Ha. discriminate Ha.
Qed.

(** X3.  [swallow_synced] and [swallow_unsynced] turn the protocol error
    into a boolean: [True] when the function returns and the pop finds
    nothing, [False] when the pop finds an error code or the function
    itself raised [XError]; any other exception of the function goes on to
    the caller, and [XError] never does.  On every path where [_call]
    exits, the trap is popped exactly once, and the successful path logs
    nothing at error level. *)
Theorem swallow_reports_success {A} (need_sync : bool) (fn : M X A)
    (w w2 : world X) (r : outcome A) :
  0 <= depth w ->
  fn (snd (Xenter cfg sys w)) = (r, w2) ->
  0 <= depth w2 ->
  exists w3,
    (if need_sync then swallow_synced cfg sys fn else swallow_unsynced cfg sys fn) w
    = (match r with
       | Ret _ => Ret (popped need_sync w2 =? 0)
       | Raise e => if is_XError e then Ret false else Raise e
       end, w3)
    /\ ((forall e, r = Raise e -> is_Exception e = true) ->
        depth w3 = depth w2 - 1
        /\ count_pop (journal w3) = S (count_pop (journal w2)))
    /\ (forall a, r = Ret a -> popped need_sync w2 = 0 ->
        error_entries (journal w3) = error_entries (journal w2)).
Proof.
  intros Hd Hf Hd2.
  destruct need_sync; exact (swallow_spec _ fn w w2 r Hd Hf Hd2).
Qed.

(** ** The region guards, path by path *)

Lemma safe_x_exit_grows : grows (safe_x_exit cfg sys).
Proof.
  unfold safe_x_exit, log. apply grows_try_except; [apply Xexit_grows|].
  intros e. auto with grows.
Qed.

Lemma safe_x_exit_clean (w : world X) :
  0 <= depth w ->
  popped true w = 0 ->
  safe_x_exit cfg sys w
  = (Ret tt,
     World (depth w - 1) (xerror_to_name w)
       (snd (error_trap_pop (display_before_pop true w)))
       (journal w
        ++ sync_log cfg "X11trap.exit at level %i, need_sync=%s"
             [str_int (depth w - 1); "True"]
        ++ exit_calls true w)).
Proof.
  intros Hd Hz. unfold safe_x_exit, try_except.
  rewrite (Xexit_eval_clean true w Hd Hz). reflexivity.
Qed.

Lemma XLogContext_exit_spec (e_typ : option exn) (w : world X) :
  0 <= depth w ->
  exists w1 l, XLogContext_exit cfg sys e_typ w = (Ret true, w1)
    /\ depth w1 = depth w - 1
    /\ native (journal w1) = native (journal w) ++ exit_calls true w
    /\ journal w1
       = journal w ++ (if bool_decide (is_Some e_typ) then xlog_entries else []) ++ l.
Proof.
  intros Hd. unfold XLogContext_exit. unfold bind at 1.
  set (w' := logged w (if bool_decide (is_Some e_typ) then xlog_entries else [])).
  assert (Hlog : when (bool_decide (is_Some e_typ))
                   (log_error "Error: %s, %s" [] ;;; log_error " X11 log context" []) w
                 = (Ret tt, w')).
  { subst w'. unfold logged. destruct (bool_decide (is_Some e_typ)); cbn [when].
    - unfold bind, log_error, emit, xlog_entries. cbn [depth xerror_to_name display journal].
      rewrite <- app_assoc. reflexivity.
    - unfold ret. rewrite app_nil_r, world_eta. reflexivity. }
  rewrite Hlog. unfold bind at 1.
  assert (Hu : undisturbed w w').
  { subst w'. apply undisturbed_log. destruct (bool_decide (is_Some e_typ)); reflexivity. }
  destruct (exit_calls_undisturbed true _ _ Hu) as (_ & Hc & _).
  destruct Hu as (Hd' & _ & Hj').
  destruct (safe_x_exit_spec cfg sys w') as (w1 & Hs & Hd1 & Hj1); [lia|].
  destruct (safe_x_exit_grows w') as (l & Hl). rewrite Hs in *. cbn [snd] in Hl.
  exists w1, l. split; [reflexivity|]. split; [lia|]. split.
  - rewrite Hj1, Hj', Hc. reflexivity.
  - rewrite Hl. subst w'. unfold logged. cbn [journal]. rewrite <- app_assoc. reflexivity.
Qed.

(** X4.  A [with xlog] statement never raises: whatever the block raised
    is suppressed, after two entries at error level; the [XError] of the
    exit is dropped; the trap is popped exactly once.  When the block
    returned and the pop found nothing, no entry at error level is
    written. *)
Theorem xlog_logs_and_suppresses {A} (block : M X A) (w w2 : world X)
    (r : outcome A) :
  0 <= depth w ->
  block (snd (Xenter cfg sys w)) = (r, w2) ->
  0 <= depth w2 ->
  exists w3, xlog cfg sys block w = (Ret (suppressed r), w3)
    /\ depth w3 = depth w2 - 1
    /\ count_pop (journal w3) = S (count_pop (journal w2))
    /\ (forall e, r = Raise e ->
        exists l, journal w3 = journal w2 ++ xlog_entries ++ l)
    /\ (forall a, r = Ret a -> popped true w2 = 0 ->
        error_entries (journal w3) = error_entries (journal w2)).
Proof.
  intros Hd Hb Hd2. destruct (Xenter_spec cfg sys w Hd) as (w1 & He & _).
  rewrite He in Hb. cbn [snd] in Hb.
  unfold xlog, with_. unfold bind at 1. rewrite He, Hb.
  destruct r as [a|e]; cbn [suppressed].
  - destruct (XLogContext_exit_spec None w2 Hd2) as (w3 & l & Hx & Hd3 & Hj3 & _).
    unfold bind at 1. rewrite Hx. exists w3. split; [reflexivity|].
    split; [exact Hd3|]. split; [exact (pops_after_exit true w2 w3 Hj3)|]. split.
    + intros e He'. discriminate He'.
    + intros a0 _ Hz. unfold XLogContext_exit in Hx. unfold bind in Hx.
      cbn [when bool_decide] in Hx.
      replace (bool_decide (is_Some (@None exn))) with false in Hx
        by (symmetry; apply bool_decide_eq_false; intros [? ?]; discriminate).
      cbn [when] in Hx. unfold ret at 1 in Hx.
      rewrite (safe_x_exit_clean w2 Hd2 Hz) in Hx. injection Hx as <-.
      cbn [journal]. rewrite !error_entries_app, error_entries_sync_log,
        error_entries_exit_calls, !app_nil_r. reflexivity.
  - destruct (XLogContext_exit_spec (Some e) w2 Hd2) as (w3 & l & Hx & Hd3 & Hj3 & Hl).
    rewrite Hx. exists w3. split; [reflexivity|].
    split; [exact Hd3|]. split; [exact (pops_after_exit true w2 w3 Hj3)|]. split.
    + intros e0 _. exists l. rewrite Hl.
      rewrite bool_decide_eq_true_2 by eauto. reflexivity.
    + intros a Ha. discriminate Ha.
Qed.

(** X5.  A [with xsync] statement whose exit pops no error is
    transparent: it returns what the block returned, or raises what the
    block raised, and its exit adds to the journal only its own native
    calls (and the debug entry of [XPRA_LOG_SYNC]). *)
Theorem xsync_transparent_without_error {A} (block : M X A) (w w2 : world X)
    (r : outcome A) :
  0 <= depth w ->
  block (snd (Xenter cfg sys w)) = (r, w2) ->
  0 <= depth w2 ->
  popped true w2 = 0 ->
  xsync cfg sys block w
  = (match r with Ret a => Ret (Some a) | Raise e => Raise e end,
     World (depth w2 - 1) (xerror_to_name w2)
       (snd (error_trap_pop (display_before_pop true w2)))
       (journal w2
        ++ sync_log cfg "X11trap.exit at level %i, need_sync=%s"
             [str_int (depth w2 - 1); "True"]
        ++ exit_calls true w2)).
Proof.
  intros Hd Hb Hd2 Hz. destruct (Xenter_spec cfg sys w Hd) as (w1 & He & _).
  rewrite He in Hb. cbn [snd] in Hb.
  unfold xsync, with_. unfold bind at 1. rewrite He, Hb.
  assert (Hx : forall e_typ, XSyncContext_exit cfg sys e_typ w2
    = (Ret false,
       World (depth w2 - 1) (xerror_to_name w2)
         (snd (error_trap_pop (display_before_pop true w2)))
         (journal w2
          ++ sync_log cfg "X11trap.exit at level %i, need_sync=%s"
               [str_int (depth w2 - 1); "True"]
          ++ exit_calls true w2))).
  { intros e_typ. unfold XSyncContext_exit, bind, try_except.
    rewrite (Xexit_eval_clean true w2 Hd2 Hz). reflexivity. }
  destruct r as [a|e].
  - unfold bind. rewrite Hx. reflexivity.
  - rewrite Hx. reflexivity.
Qed.

(** ** Nesting *)

Lemma XSyncContext_exit_spec (e_typ : option exn) (w : world X) :
  0 <= depth w ->
  exists r w1, XSyncContext_exit cfg sys e_typ w = (r, w1)
    /\ depth w1 = depth w - 1
    /\ native (journal w1) = native (journal w) ++ exit_calls true w
    /\ (r = Ret false \/ exists msg, r = Raise (XError msg)).
Proof.
  intros Hd. unfold XSyncContext_exit, bind, try_except.
  destruct (Xexit_spec cfg sys true w Hd) as (r & w1 & -> & Hd1 & _ & Hj1 & Hok & Hbad).
  destruct (Z.eq_dec (popped true w) 0) as [Hz|Hnz].
  - rewrite (Hok Hz). eexists _, _. split; [reflexivity|]. auto.
  - destruct (Hbad Hnz) as (msg & _ & -> & _). cbn [is_XError].
    destruct e_typ as [t|].
    + unfold log, emit, ret. cbn [depth xerror_to_name display journal].
      eexists _, _. split; [reflexivity|]. cbn [depth journal].
      rewrite native_app, app_nil_r. auto.
    + unfold raise. eexists _, _. split; [reflexivity|]. eauto.
Qed.

Lemma XSwallowContext_exit_spec (e_typ : option exn) (w : world X) :
  0 <= depth w ->
  exists w1, XSwallowContext_exit cfg sys e_typ w = (Ret true, w1)
    /\ depth w1 = depth w - 1
    /\ native (journal w1) = native (journal w) ++ exit_calls true w.
Proof.
  intros Hd. unfold XSwallowContext_exit. unfold bind at 1.
  assert (Hlog : exists w', when (bool_decide (is_Some e_typ))
                    (log "XError swallowed: %s, %s" []) w = (Ret tt, w')
                  /\ undisturbed w w').
  { destruct (bool_decide (is_Some e_typ)); [apply log_undisturbed|].
    exists w. split; [reflexivity|apply undisturbed_refl]. }
  destruct Hlog as (w' & -> & Hu).
  destruct (exit_calls_undisturbed true _ _ Hu) as (_ & Hc & _).
  destruct Hu as (Hd' & _ & Hj').
  unfold bind at 1.
  destruct (safe_x_exit_spec cfg sys w') as (w1 & -> & Hd1 & Hj1); [lia|].
  exists w1. split; [reflexivity|]. rewrite Hd1, Hj1, Hd', Hj', Hc. auto.
Qed.

(** A [with] statement over [Xenter] and an exit that lowers the depth by
    one and raises nothing worse than an [Exception]. *)
Lemma with_well_bracketed {A} (exit : option exn -> M X bool) (block : M X A) :
  (forall e_typ (w : world X), 0 <= depth w ->
     exists r w1, exit e_typ w = (r, w1) /\ depth w1 = depth w - 1
       /\ forall e, r = Raise e -> is_Exception e = true) ->
  well_bracketed block ->
  well_bracketed (with_ (Xenter cfg sys) exit block).
Proof.
  intros Hexit Hblock w Hd. unfold with_, bind.
  destruct (Xenter_spec cfg sys w Hd) as (w1 & -> & Hd1 & _).
  destruct (Hblock w1) as (Hdb & Hexc); [lia|].
  destruct (block w1) as [[a|e] w2]; cbn [fst snd] in *.
  - destruct (Hexit None w2) as (r & w3 & -> & Hd3 & Hr); [lia|].
    destruct r as [b|e']; unfold ret; cbn [fst snd].
    + split; [lia|]. intros e He. discriminate He.
    + split; [lia|]. intros e He. injection He as <-. apply Hr. reflexivity.
  - destruct (Hexit (Some e) w2) as (r & w3 & -> & Hd3 & Hr); [lia|].
    destruct r as [[|]|e']; cbn [fst snd].
    + split; [lia|]. intros e0 He. discriminate He.
    + split; [lia|]. intros e0 He. injection He as <-. apply Hexc. reflexivity.
    + split; [lia|]. intros e0 He. injection He as <-. apply Hr. reflexivity.
Qed.

(** X6.  The combinators nest: if the function or block leaves the depth
    as it found it and raises only exceptions deriving from [Exception],
    then so does the call or region around it, whatever the pops report.
    Hence any nesting of [_call], [swallow_synced], [swallow_unsynced],
    [xsync], [xswallow] and [xlog] gives the depth back. *)
Theorem combinators_well_bracketed {A} (fn : M X A) :
  well_bracketed fn ->
  (forall need_sync, well_bracketed (_call cfg sys need_sync fn))
  /\ well_bracketed (swallow_synced cfg sys fn)
  /\ well_bracketed (swallow_unsynced cfg sys fn)
  /\ well_bracketed (xsync cfg sys fn)
  /\ well_bracketed (xswallow cfg sys fn)
  /\ well_bracketed (xlog cfg sys fn).
Proof.
  intros Hfn.
  assert (Hswallow : forall need_sync,
    well_bracketed
      (try_except (_call cfg sys need_sync fn ;;; ret true) is_XError
         (fun _ => log "Ignoring X error on %s" [] ;;; ret false))).
  { intros need_sync w Hd.
    destruct (Xenter_spec cfg sys w Hd) as (w1 & He & Hd1 & _).
    destruct (Hfn w1) as (Hdf & Hexc); [lia|].
    destruct (fn w1) as [r w2] eqn:Hf. cbn [fst snd] in *.
    destruct (swallow_spec need_sync fn w w2 r Hd) as (w3 & Hs & Hdepth & _);
      [rewrite He; exact Hf|lia|].
    rewrite Hs. cbn [fst snd].
    destruct Hdepth as (Hd3 & _); [intros e ->; apply Hexc; reflexivity|].
    split; [lia|]. intros e Hr. destruct r as [a|e0]; [discriminate Hr|].
    destruct (is_XError e0); [discriminate Hr|]. injection Hr as <-.
    apply Hexc. reflexivity. }
  split; [|split; [exact (Hswallow true)|split; [exact (Hswallow false)|]]].
  - intros need_sync w Hd.
    destruct (Xenter_spec cfg sys w Hd) as (w1 & He & Hd1 & _).
    destruct (Hfn w1) as (Hdf & Hexc); [lia|].
    destruct (fn w1) as [[a|e] w2] eqn:Hf; cbn [fst snd] in *.
    + destruct (_call_returns cfg sys need_sync fn w w1 w2 a He Hf)
        as (r & w3 & -> & Hd3 & _ & _ & Hok & Hbad); [lia|].
      cbn [fst snd]. split; [lia|]. intros e Hr.
      destruct (Z.eq_dec (popped need_sync w2) 0) as [Hz|Hnz].
      * rewrite (Hok Hz) in Hr. discriminate Hr.
      * destruct (Hbad Hnz) as (msg & _ & -> & _). injection Hr as <-. reflexivity.
    + destruct (_call_raising cfg sys need_sync fn w w1 w2 e He Hf)
        as (w3 & -> & Hd3 & _); [apply Hexc; reflexivity|lia|].
      cbn [fst snd]. split; [lia|]. intros e0 Hr. injection Hr as <-.
      apply Hexc. reflexivity.
  - split; [|split].
    + apply with_well_bracketed; [|exact Hfn]. intros e_typ w Hd.
      destruct (XSyncContext_exit_spec e_typ w Hd) as (r & w1 & Hx & Hd1 & _ & Hr).
      exists r, w1. split; [exact Hx|]. split; [exact Hd1|].
      intros e ->. destruct Hr as [Hr|[msg Hr]]; [discriminate Hr|].
      injection Hr as ->. reflexivity.
    + apply with_well_bracketed; [|exact Hfn]. intros e_typ w Hd.
      destruct (XSwallowContext_exit_spec e_typ w Hd) as (w1 & Hx & Hd1 & _).
      exists (Ret true), w1. split; [exact Hx|]. split; [exact Hd1|].
      intros e He. discriminate He.
    + apply with_well_bracketed; [|exact Hfn]. intros e_typ w Hd.
      destruct (XLogContext_exit_spec e_typ w Hd) as (w1 & l & Hx & Hd1 & _).
      exists (Ret true), w1. split; [exact Hx|]. split; [exact Hd1|].
      intros e He. discriminate He.
Qed.

(** ** Where the round trip is paid *)


Lemma call_synced_flushes {A} (fn : M X A) (w w1 w2 : world X) (r : outcome A) :
  Xenter cfg sys w = (Ret tt, w1) ->
  fn w1 = (r, w2) ->
  0 <= depth w2 ->
  (forall e, r = Raise e -> is_Exception e = true) ->
  count_flush (journal (snd (call_synced cfg sys fn w)))
  = Nat.add (count_flush (journal w2))
      (if exit_flushes (depth w2) true then 1%nat else 0%nat).
Proof.
  intros He Hf Hd2 Hexc. unfold call_synced. destruct r as [a|e].
  - destruct (_call_returns cfg sys true fn w w1 w2 a He Hf Hd2)
      as (r & w3 & -> & _ & _ & Hj & _).
    exact (flushes_after_exit true w2 w3 Hj).
  - destruct (_call_raising cfg sys true fn w w1 w2 e He Hf (Hexc e eq_refl) Hd2)
      as (w3 & -> & _ & _ & Hj).
    exact (flushes_after_exit true w2 w3 Hj).
Qed.


Lemma swallow_synced_flushes {A} (fn : M X A) (w : world X) :
  count_flush (journal (snd (swallow_synced cfg sys fn w)))
  = count_flush (journal (snd (call_synced cfg sys fn w))).
Proof.
  unfold swallow_synced, try_except. unfold bind at 1.
  destruct (call_synced cfg sys fn w) as [[a|e] w3]; cbn [snd]; [reflexivity|].
  destruct (is_XError e); [|reflexivity].
  unfold bind, log, emit, ret. cbn [snd journal].
  rewrite count_flush_app. cbn. lia.
Qed.

(** X8.  With [XPRA_SYNCHRONIZE] set, [call] is [call_synced] and
    [swallow] is [swallow_synced]: entered at depth 0 around a function
    that leaves the depth alone, each of them flushes exactly once. *)
Theorem synchronize_selects_synced {A} (fn : M X A) (w w2 : world X)
    (r : outcome A) :
  XPRA_SYNCHRONIZE cfg = true ->
  depth w = 0 ->
  fn (snd (Xenter cfg sys w)) = (r, w2) ->
  depth w2 = 1 ->
  (forall e, r = Raise e -> is_Exception e = true) ->
  call cfg sys fn = _call cfg sys true fn
  /\ swallow cfg sys fn = swallow_synced cfg sys fn
  /\ count_flush (journal (snd (call cfg sys fn w))) = S (count_flush (journal w2))
  /\ count_flush (journal (snd (swallow cfg sys fn w))) = S (count_flush (journal w2)).
Proof.
  intros Hon Hd Hf Hd2 Hexc. unfold call, swallow. rewrite Hon.
  split; [reflexivity|]. split; [reflexivity|].
  destruct (Xenter_spec cfg sys w) as (w1 & He & _); [lia|].
  rewrite He in Hf. cbn [snd] in Hf.
  rewrite swallow_synced_flushes.
  assert (Hc : count_flush (journal (snd (call_synced cfg sys fn w)))
               = S (count_flush (journal w2))).
  { rewrite (call_synced_flushes fn w w1 w2 r He Hf); [|lia|exact Hexc].
    unfold exit_flushes. rewrite Hd2.
    replace ((1 - 1 =? 0) && true) with true by reflexivity. lia. }
  split; exact Hc.
Qed.

(** ** Traps are balanced *)

Lemma run_calls_balanced (s : list trap_call) :
  forall (k : nat) (w : world X),
    matched k s = true ->
    Z.of_nat k <= depth w ->
    count_push (journal (snd (run_calls cfg sys s w)))
    = (count_push (journal w) + enters s)%nat
    /\ count_pop (journal (snd (run_calls cfg sys s w)))
       = (count_pop (journal w) + k + enters s)%nat.
Proof.
  induction s as [|c s IH]; intros k w Hm Hk.
  - cbn in *. apply Nat.eqb_eq in Hm. subst k. lia.
  - cbn [run_calls]. destruct c as [|need_sync]; cbn [run_call matched enters] in *.
    + destruct (Xenter_spec cfg sys w) as (w1 & -> & Hd1 & _ & Hj1); [lia|].
      specialize (IH (S k) w1 Hm).
      destruct (run_calls cfg sys s w1) as [rs w']. cbn [snd] in *.
      destruct IH as (Hpush & Hpop); [lia|]. rewrite Hpush, Hpop.
      rewrite <- (count_push_native (journal w1)), <- (count_pop_native (journal w1)), Hj1,
        count_push_app, count_pop_app, count_push_native, count_pop_native.
      cbn. lia.
    + destruct k as [|k]; [discriminate|].
      destruct (Xexit_spec cfg sys need_sync w) as (r & w1 & -> & Hd1 & _ & Hj1 & _); [lia|].
      specialize (IH k w1 Hm).
      destruct (run_calls cfg sys s w1) as [rs w']. cbn [snd] in *.
      destruct IH as (Hpush & Hpop); [lia|]. rewrite Hpush, Hpop.
      rewrite <- (count_push_native (journal w1)), <- (count_pop_native (journal w1)), Hj1,
        count_push_app, count_pop_app, count_push_native, count_pop_native,
        count_push_exit_calls, count_pop_exit_calls.
      lia.
Qed.

(** X9.  A matched sequence of enter and exit calls pushes and pops the
    same number of traps, one of each per [Enter], whatever the exits
    raise: no trap is left pushed and none is popped twice. *)
Theorem matched_sequence_balances_traps (s : list trap_call) (w : world X) :
  matched 0 s = true ->
  0 <= depth w ->
  count_push (journal (snd (run_calls cfg sys s w)))
  = (count_push (journal w) + enters s)%nat
  /\ count_pop (journal (snd (run_calls cfg sys s w)))
     = (count_pop (journal w) + enters s)%nat.
Proof.
  intros Hm Hd. destruct (run_calls_balanced s 0 w Hm) as (Hpush & Hpop); [cbn; lia|].
  split; [exact Hpush|]. rewrite Hpop. lia.
Qed.

(** ** Exits without an enter *)

(** X10.  An [Xexit] at depth 0, with no region open, passes the
    assertion: it pops a trap that was never pushed, without a flush even
    when a sync is asked for, and leaves the depth at -1.  From then on
    [Xenter] and [Xexit] fail their assertions without touching anything,
    and [_call] raises [AssertionError] without running its function. *)
Theorem unmatched_exit_disables_manager (need_sync : bool) (w : world X) :
  depth w = 0 ->
  exists r w1, Xexit cfg sys need_sync w = (r, w1)
    /\ depth w1 = -1
    /\ native (journal w1)
       = native (journal w) ++ [TrapPop (fst (error_trap_pop (display w)))]
    /\ Xenter cfg sys w1 = (Raise AssertionError, w1)
    /\ (forall need_sync', Xexit cfg sys need_sync' w1 = (Raise AssertionError, w1))
    /\ (forall A (fn : M X A) need_sync',
          _call cfg sys need_sync' fn w1
          = (Raise AssertionError,
             logged w1 [Log Debug "_call%s" []; Log Debug "_call%s %s" []])).
Proof.
  intros Hd.
  destruct (Xexit_spec cfg sys need_sync w) as (r & w1 & Hx & Hd1 & _ & Hj1 & _); [lia|].
  exists r, w1. split; [exact Hx|]. split; [lia|]. split.
  - rewrite Hj1. unfold exit_calls, popped, display_before_pop, exit_flushes.
    rewrite Hd. reflexivity.
  - assert (Hneg : depth w1 < 0) by lia.
    split; [exact (Xenter_negative w1 Hneg)|].
    split; [intros ns; exact (Xexit_negative ns w1 Hneg)|].
    intros A fn ns. unfold _call. unfold bind at 1. unfold try_except at 1.
    unfold bind at 1. rewrite (Xenter_negative w1 Hneg). cbn [is_Exception].
    unfold bind at 1. unfold log at 1, emit at 1.
    unfold bind at 1. unfold log at 1, emit at 1. cbn [depth xerror_to_name display journal].
    unfold bind at 1. unfold try_except.
    rewrite Xexit_negative by (cbn [depth]; exact Hneg).
    cbn [is_XError]. unfold logged. rewrite <- app_assoc. reflexivity.
Qed.

(** ** The thread check *)

Lemma error_entries_nested_log (d : Z) : error_entries (nested_log cfg sys d) = [].
Proof.
  unfold nested_log. destruct (LOG_NESTED_XTRAP cfg && (0 <? d)); [|reflexivity].
  induction (extract_stack sys); [reflexivity|exact IHl].
Qed.

(** X11.  The thread check of [Xenter] only reports: called off the main
    thread with [XPRA_VERIFY_MAIN_THREAD] on, [Xenter] logs one error and
    prints the stack, and then pushes the trap and raises the depth as it
    does on the main thread; otherwise it logs nothing at error level. *)
Theorem Xenter_off_main_thread_proceeds (w : world X) :
  0 <= depth w ->
  fst (Xenter cfg sys w) = Ret tt
  /\ depth (snd (Xenter cfg sys w)) = depth w + 1
  /\ display (snd (Xenter cfg sys w)) = error_trap_push (display w)
  /\ native (journal (snd (Xenter cfg sys w))) = native (journal w) ++ [TrapPush]
  /\ error_entries (journal (snd (Xenter cfg sys w)))
     = error_entries (journal w)
       ++ (if VERIFY_MAIN_THREAD cfg && negb (is_main_thread sys)
           then [Log Error "Error: invalid access from thread %s" []] else [])
  /\ (VERIFY_MAIN_THREAD cfg = true -> is_main_thread sys = false ->
      exists l, journal (snd (Xenter cfg sys w))
                = journal w
                  ++ [Log Error "Error: invalid access from thread %s" []; PrintStack;
                      TrapPush] ++ l).
Proof.
  intros Hd. rewrite (Xenter_eval w Hd). cbn [fst snd depth display journal].
  split; [reflexivity|]. split; [reflexivity|]. split; [reflexivity|]. split; [|split].
  - destruct (Xenter_spec cfg sys w Hd) as (w1 & He & _ & _ & Hj).
    rewrite (Xenter_eval w Hd) in He. injection He as <-. exact Hj.
  - rewrite !error_entries_app, error_entries_sync_log, error_entries_nested_log.
    unfold thread_log. destruct (VERIFY_MAIN_THREAD cfg && negb (is_main_thread sys));
      cbn; rewrite ?app_nil_r; reflexivity.
  - intros Hv Hm. unfold thread_log. rewrite Hv, Hm. cbn [andb negb].
    eexists. cbn. reflexivity.
Qed.

(** ** The name cache over time *)

(** What [get_X_error] answers for an int when the constants import, as a
    function of the cache it finds. *)
Lemma get_X_error_answer (cs : list (string * Z)) (code : Z) (w : world X) :
  constants sys = Ret cs ->
  fst (get_X_error sys (AInt code) w)
  = Ret (match cached_names cs (xerror_to_name w) !! code with
         | Some name => if String.eqb name "" then str_int code else name
         | None => match get_error_text sys code with
                   | Ret text => text
                   | Raise _ => str_int code
                   end
         end)
  /\ xerror_to_name (snd (get_X_error sys (AInt code) w))
     = cached_names cs (xerror_to_name w).
Proof.
  intros Hcs.
  assert (Heval : exists j,
    get_X_error sys (AInt code) w
    = (Ret (match cached_names cs (xerror_to_name w) !! code with
            | Some name => if String.eqb name "" then str_int code else name
            | None => match get_error_text sys code with
                      | Ret text => text
                      | Raise _ => str_int code
                      end
            end),
       World (depth w) (cached_names cs (xerror_to_name w)) (display w) j)).
  { unfold get_X_error, with_. unfold bind at 1. unfold bind at 1. unfold ret at 1.
    rewrite (get_X_error_body_eval sys cs code w Hcs).
    destruct (cached_names cs (xerror_to_name w) !! code) as [name|].
    - cbn. eexists. reflexivity.
    - destruct (get_error_text sys code) as [text|e]; cbn; eexists; reflexivity. }
  destruct Heval as (j & ->). cbn [fst snd xerror_to_name]. auto.
Qed.

Lemma cached_names_not_empty (cs : list (string * Z)) (names : gmap Z string) :
  cached_names cs names <> ∅.
Proof.
  unfold cached_names. destruct (bool_decide (names = ∅)) eqn:Hb.
  - intros Hempty.
    destruct (add_error_names_keeps cs (<[0 := "OK"]> names) 0) as [n Hn].
    { rewrite lookup_insert_eq. eauto. }
    rewrite Hempty, lookup_empty in Hn. discriminate Hn.
  - apply bool_decide_eq_false in Hb. exact Hb.
Qed.

Lemma cached_names_stable (cs : list (string * Z)) (names : gmap Z string) :
  names <> ∅ -> cached_names cs names = names.
Proof.
  intros Hne. unfold cached_names. rewrite bool_decide_eq_false_2 by exact Hne. reflexivity.
Qed.

(** X12.  The name cache is built once.  After a first resolution (the
    constants importing), the cache is not empty, a later resolution of
    any code leaves it as it is, and gives the answer a resolution in the
    first state would have given. *)
Theorem error_names_built_once (cs : list (string * Z)) (code code' : Z)
    (w : world X) :
  constants sys = Ret cs ->
  xerror_to_name (snd (get_X_error sys (AInt code) w)) <> ∅
  /\ xerror_to_name (snd (get_X_error sys (AInt code')
                            (snd (get_X_error sys (AInt code) w))))
     = xerror_to_name (snd (get_X_error sys (AInt code) w))
  /\ fst (get_X_error sys (AInt code') (snd (get_X_error sys (AInt code) w)))
     = fst (get_X_error sys (AInt code') w).
Proof.
  intros Hcs.
  destruct (get_X_error_answer cs code w Hcs) as (_ & Hn1).
  destruct (get_X_error_answer cs code' (snd (get_X_error sys (AInt code) w)) Hcs)
    as (Ha2 & Hn2).
  destruct (get_X_error_answer cs code' w Hcs) as (Ha & _).
  pose proof (cached_names_not_empty cs (xerror_to_name w)) as Hne.
  rewrite Hn1 in *. rewrite (cached_names_stable cs _ Hne) in *.
  split; [exact Hne|]. split; [exact Hn2|]. rewrite Ha2, Ha. reflexivity.
Qed.

Lemma add_error_names_app (l1 l2 : list (string * Z)) (names : gmap Z string) :
  add_error_names (l1 ++ l2) names = add_error_names l2 (add_error_names l1 names).
Proof. unfold add_error_names. apply fold_left_app. Qed.

Lemma add_error_names_miss (cs : list (string * Z)) :
  forall (names : gmap Z string) (code : Z),
    (forall n, In (n, code) cs -> is_error_name n = false) ->
    add_error_names cs names !! code = names !! code.
Proof.
  induction cs as [|[name c] cs IH]; intros names code Hmiss; [reflexivity|].
  rewrite add_error_names_cons. cbn [fst snd].
  rewrite IH by (intros n Hin; apply Hmiss; right; exact Hin).
  destruct (is_error_name name) eqn:Hname; [|reflexivity].
  destruct (decide (c = code)) as [->|Hne].
  - rewrite (Hmiss name) in Hname by (left; reflexivity). discriminate Hname.
  - apply lookup_insert_ne. exact Hne.
Qed.

(** X13.  Among the [Success] and [Bad*] constants of one code the last
    one in the order of [constants.items()] names the code: on first use,
    a code resolves to the name of the last error constant that has it. *)
Theorem last_error_constant_names_code (l1 l2 : list (string * Z))
    (name : string) (code : Z) (w : world X) :
  constants sys = Ret (l1 ++ (name, code) :: l2) ->
  xerror_to_name w = ∅ ->
  is_error_name name = true ->
  (forall n, In (n, code) l2 -> is_error_name n = false) ->
  fst (get_X_error sys (AInt code) w) = Ret name.
Proof.
  intros Hcs Hempty Hname Hlast.
  destruct (get_X_error_answer _ code w Hcs) as (-> & _).
  unfold cached_names. rewrite Hempty, bool_decide_eq_true_2 by reflexivity.
  rewrite add_error_names_app, add_error_names_cons. cbn [fst snd]. rewrite Hname.
  rewrite (add_error_names_miss l2 _ code Hlast), lookup_insert_eq.
  rewrite (error_name_not_empty name Hname). reflexivity.
Qed.

(** X14.  Code 0 never reaches the bindings' [get_error_text]: on first
    use, when no error constant has the value 0, it resolves to ["OK"],
    the entry that the cache starts with. *)
Theorem zero_resolves_to_OK (cs : list (string * Z)) (w : world X) :
  constants sys = Ret cs ->
  xerror_to_name w = ∅ ->
  (forall n, In (n, 0) cs -> is_error_name n = false) ->
  fst (get_X_error sys (AInt 0) w) = Ret "OK".
Proof.
  intros Hcs Hempty Hmiss.
  destruct (get_X_error_answer cs 0 w Hcs) as (-> & _).
  unfold cached_names. rewrite Hempty, bool_decide_eq_true_2 by reflexivity.
  rewrite (add_error_names_miss cs _ 0 Hmiss), lookup_insert_eq. reflexivity.
Qed.

(** ** [verify_sync] and the regions *)

(** X15.  Inside a region [verify_sync] is silent for every argument
    list: right after an [Xenter] it returns without logging, and without
    formatting its first argument. *)
Theorem verify_sync_silent_in_region (args : list pyval) (w : world X) :
  0 <= depth w ->
  verify_sync sys args (snd (Xenter cfg sys w)) = (Ret tt, snd (Xenter cfg sys w)).
Proof.
  intros Hd. destruct (Xenter_spec cfg sys w Hd) as (w1 & -> & Hd1 & _).
  cbn [snd]. apply verify_sync_managed. lia.
Qed.

(** X16.  Outside of any region, with no argument or a first argument
    that [%] formats, [verify_sync] returns after logging, all at error
    level: the "unmanaged" line, the formatted first argument if there is
    one, and the lines of every stack frame but the last.  It changes
    nothing else. *)
Theorem verify_sync_reports_unmanaged (args : list pyval) (w : world X) :
  depth w <= 0 ->
  formats args ->
  exists l, verify_sync sys args w = (Ret tt, logged w l)
    /\ error_entries l = l
    /\ l = unmanaged_log
           :: match args with
              | [] => []
              | a0 :: _ => match percent_s a0 with
                           | inr fmt => [Log Error fmt []]
                           | inl _ => []
                           end
              end ++ stack_log sys.
Proof.
  intros Hd Hf. rewrite (verify_sync_unmanaged sys args w Hd).
  assert (Hstack : error_entries (stack_log sys) = stack_log sys).
  { unfold stack_log. induction (removelast (extract_stack sys)) as [|x l IH]; [reflexivity|].
    cbn [flat_map]. rewrite error_entries_app, IH. f_equal.
    induction x as [|v x IHx]; [reflexivity|]. cbn. f_equal. exact IHx. }
  destruct args as [|a0 rest].
  - eexists. split; [reflexivity|]. split; [|reflexivity].
    cbn. f_equal. exact Hstack.
  - destruct Hf as [fmt Hfmt]. rewrite Hfmt.
    eexists. split; [reflexivity|]. split; [|reflexivity].
    cbn. do 2 f_equal. exact Hstack.
Qed.

End Further.

(** * The further properties on the concrete display *)

Lemma call_exception_pops_once_witness :
  exists w3,
    _call default_config x11_host true (raise (A := unit) (ProgramError "ValueError"))
          (idle [3])
    = (Raise (ProgramError "ValueError"), w3)
    /\ depth w3 = depth (World 1 ∅ [3] [TrapPush]) - 1
    /\ count_pop (journal w3) = S (count_pop (journal (World 1 ∅ [3] [TrapPush])))
    /\ (popped true (World 1 ∅ [3] [TrapPush]) <> 0 ->
        exists msg j, journal w3 = j ++ [Log Debug (unwind_text (XError msg)) []]).
Proof.
  apply (call_exception_pops_once default_config x11_host true
           (raise (ProgramError "ValueError")) (idle [3]) (World 1 ∅ [3] [TrapPush])).
  - simpl. lia.
  - vm_compute. reflexivity.
  - reflexivity.
  - simpl. lia.
Defined.

Lemma call_returns_value_or_XError_witness :
  exists r w3,
    _call default_config x11_host false (failing_request 11) (idle []) = (r, w3)
    /\ depth w3 = depth (World 1 ∅ [11] [TrapPush]) - 1
    /\ count_pop (journal w3) = S (count_pop (journal (World 1 ∅ [11] [TrapPush])))
    /\ (popped false (World 1 ∅ [11] [TrapPush]) = 0 -> r = Ret tt)
    /\ (popped false (World 1 ∅ [11] [TrapPush]) <> 0 ->
        exists msg w0, r = Raise (XError msg)
          /\ get_X_error x11_host (AInt (popped false (World 1 ∅ [11] [TrapPush]))) w0
             = (Ret msg, w3)).
Proof.
  apply (call_returns_value_or_XError default_config x11_host false
           (failing_request 11) (idle []) (World 1 ∅ [11] [TrapPush]) tt).
  - simpl. lia.
  - vm_compute. reflexivity.
  - simpl. lia.
Defined.

Lemma swallow_reports_success_witness :
  exists w3,
    swallow_synced default_config x11_host (failing_request 11) (idle [])
    = (Ret (popped true (World 1 ∅ [11] [TrapPush]) =? 0), w3)
    /\ ((forall e, Ret (A := unit) tt = Raise e -> is_Exception e = true) ->
        depth w3 = depth (World 1 ∅ [11] [TrapPush]) - 1
        /\ count_pop (journal w3) = S (count_pop (journal (World 1 ∅ [11] [TrapPush]))))
    /\ (forall a, Ret tt = Ret a -> popped true (World 1 ∅ [11] [TrapPush]) = 0 ->
        error_entries (journal w3) = error_entries (journal (World 1 ∅ [11] [TrapPush]))).
Proof.
  apply (swallow_reports_success default_config x11_host true
           (failing_request 11) (idle []) (World 1 ∅ [11] [TrapPush]) (Ret tt)).
  - simpl. lia.
  - vm_compute. reflexivity.
  - simpl. lia.
Defined.

(** The two answers of [swallow] on the concrete display. *)
Example swallow_answers :
  fst (swallow_synced default_config x11_host (failing_request 11) (idle [])) = Ret false
  /\ fst (swallow_synced default_config x11_host (ret tt) (idle [])) = Ret true
  /\ fst (swallow_unsynced default_config x11_host
            (raise (A := unit) (ProgramError "ValueError")) (idle []))
     = Raise (ProgramError "ValueError").
Proof. vm_compute. repeat split. Qed.

Lemma xlog_logs_and_suppresses_witness :
  exists w3,
    xlog default_config x11_host (raise (A := unit) (ProgramError "ValueError")) (idle [])
    = (Ret (suppressed (Raise (A := unit) (ProgramError "ValueError"))), w3)
    /\ depth w3 = depth (World 1 ∅ ([] : list Z) [TrapPush]) - 1
    /\ count_pop (journal w3)
       = S (count_pop (journal (World 1 ∅ ([] : list Z) [TrapPush])))
    /\ (forall e, Raise (A := unit) (ProgramError "ValueError") = Raise e ->
        exists l, journal w3
                  = journal (World 1 ∅ ([] : list Z) [TrapPush]) ++ xlog_entries ++ l)
    /\ (forall a : unit, Raise (ProgramError "ValueError") = Ret a ->
        popped true (World 1 ∅ ([] : list Z) [TrapPush]) = 0 ->
        error_entries (journal w3)
        = error_entries (journal (World 1 ∅ ([] : list Z) [TrapPush]))).
Proof.
  apply (xlog_logs_and_suppresses default_config x11_host
           (raise (A := unit) (ProgramError "ValueError")) (idle [])
           (World 1 ∅ [] [TrapPush])).
  - simpl. lia.
  - vm_compute. reflexivity.
  - simpl. lia.
Defined.

Lemma xsync_transparent_without_error_witness :
  xsync default_config x11_host (ret 7) (idle [])
  = (Ret (Some 7),
     World (depth (World 1 ∅ ([] : list Z) [TrapPush]) - 1)
       (xerror_to_name (World 1 ∅ ([] : list Z) [TrapPush]))
       (snd (error_trap_pop (display_before_pop true (World 1 ∅ ([] : list Z) [TrapPush]))))
       (journal (World 1 ∅ ([] : list Z) [TrapPush])
        ++ sync_log default_config "X11trap.exit at level %i, need_sync=%s"
             [str_int (depth (World 1 ∅ ([] : list Z) [TrapPush]) - 1); "True"]
        ++ exit_calls true (World 1 ∅ ([] : list Z) [TrapPush]))).
Proof.
  apply (xsync_transparent_without_error default_config x11_host (ret 7) (idle [])
           (World 1 ∅ [] [TrapPush]) (Ret 7)).
  - simpl. lia.
  - vm_compute. reflexivity.
  - simpl. lia.
  - vm_compute. reflexivity.
Defined.

Lemma combinators_well_bracketed_witness :
  (forall need_sync,
     well_bracketed (_call default_config x11_host need_sync (failing_request 3)))
  /\ well_bracketed (swallow_synced default_config x11_host (failing_request 3))
  /\ well_bracketed (swallow_unsynced default_config x11_host (failing_request 3))
  /\ well_bracketed (xsync default_config x11_host (failing_request 3))
  /\ well_bracketed (xswallow default_config x11_host (failing_request 3))
  /\ well_bracketed (xlog default_config x11_host (failing_request 3)).
Proof.
  apply (combinators_well_bracketed default_config x11_host (failing_request 3)).
  intros w _. split; [reflexivity|]. intros e He. discriminate He.
Defined.

(** A nesting of three kinds of region around a failing request: the
    depth is back at 0 and every trap is popped. *)
Example mixed_nesting_run :
  let run := xswallow default_config x11_host
               (xsync default_config x11_host
                  (call_unsynced default_config x11_host (failing_request 3)))
               (idle []) in
  fst run = Ret None
  /\ depth (snd run) = 0
  /\ native (journal (snd run))
     = [TrapPush; TrapPush; TrapPush; TrapPop 3; TrapPop 0; Flush; TrapPop 0].
Proof. vm_compute. repeat split. Qed.


(** A synced call at depth 0 whose function raises [KeyboardInterrupt]:
    no exit, hence no flush. *)
Example call_synced_no_flush_on_KeyboardInterrupt :
  count_flush (journal (snd (call_synced default_config x11_host
                               (raise (A := unit) (SystemExiting "KeyboardInterrupt"))
                               (idle []))))
  = 0%nat.
Proof. vm_compute. reflexivity. Qed.

(** Two synced calls, one inside the other, from depth 0: one flush, by
    the outer exit. *)
Example nested_synced_calls_flush_once :
  native (journal (snd (call_synced default_config x11_host
                          (call_synced default_config x11_host (ret tt)) (idle []))))
  = [TrapPush; TrapPush; TrapPop 0; Flush; TrapPop 0].
Proof. vm_compute. reflexivity. Qed.

Lemma synchronize_selects_synced_witness :
  call synchronized_config x11_host (ret tt) = _call synchronized_config x11_host true (ret tt)
  /\ swallow synchronized_config x11_host (ret tt)
     = swallow_synced synchronized_config x11_host (ret tt)
  /\ count_flush (journal (snd (call synchronized_config x11_host (ret tt) (idle []))))
     = S (count_flush (journal (World 1 ∅ ([] : list Z) [TrapPush])))
  /\ count_flush (journal (snd (swallow synchronized_config x11_host (ret tt) (idle []))))
     = S (count_flush (journal (World 1 ∅ ([] : list Z) [TrapPush]))).
Proof.
  apply (synchronize_selects_synced synchronized_config x11_host (ret tt) (idle [])
           (World 1 ∅ [] [TrapPush]) (Ret tt)).
  - reflexivity.
  - reflexivity.
  - vm_compute. reflexivity.
  - reflexivity.
  - intros e He. discriminate He.
Defined.

Lemma matched_sequence_balances_traps_witness :
  count_push (journal (snd (run_calls default_config x11_host two_regions (idle [3]))))
  = Nat.add (count_push (journal (idle [3]))) (enters two_regions)
  /\ count_pop (journal (snd (run_calls default_config x11_host two_regions (idle [3]))))
     = Nat.add (count_pop (journal (idle [3]))) (enters two_regions).
Proof.
  apply (matched_sequence_balances_traps default_config x11_host two_regions (idle [3])).
  - reflexivity.
  - simpl. lia.
Defined.

Lemma unmatched_exit_disables_manager_witness :
  exists r w1, Xexit default_config x11_host true (idle [3]) = (r, w1)
    /\ depth w1 = -1
    /\ native (journal w1)
       = native (journal (idle [3])) ++ [TrapPop (fst (error_trap_pop (display (idle [3]))))]
    /\ Xenter default_config x11_host w1 = (Raise AssertionError, w1)
    /\ (forall need_sync',
          Xexit default_config x11_host need_sync' w1 = (Raise AssertionError, w1))
    /\ (forall A (fn : M (list Z) A) need_sync',
          _call default_config x11_host need_sync' fn w1
          = (Raise AssertionError,
             logged w1 [Log Debug "_call%s" []; Log Debug "_call%s %s" []])).
Proof.
  apply (unmatched_exit_disables_manager default_config x11_host true (idle [3])).
  reflexivity.
Defined.

Lemma Xenter_off_main_thread_proceeds_witness :
  fst (Xenter default_config worker_host (idle [])) = Ret tt
  /\ depth (snd (Xenter default_config worker_host (idle []))) = depth (idle []) + 1
  /\ display (snd (Xenter default_config worker_host (idle [])))
     = error_trap_push (display (idle []))
  /\ native (journal (snd (Xenter default_config worker_host (idle []))))
     = native (journal (idle [])) ++ [TrapPush]
  /\ error_entries (journal (snd (Xenter default_config worker_host (idle []))))
     = error_entries (journal (idle []))
       ++ (if VERIFY_MAIN_THREAD default_config && negb (is_main_thread worker_host)
           then [Log Error "Error: invalid access from thread %s" []] else [])
  /\ (VERIFY_MAIN_THREAD default_config = true -> is_main_thread worker_host = false ->
      exists l, journal (snd (Xenter default_config worker_host (idle [])))
                = journal (idle [])
                  ++ [Log Error "Error: invalid access from thread %s" []; PrintStack;
                      TrapPush] ++ l).
Proof.
  apply (Xenter_off_main_thread_proceeds default_config worker_host (idle [])).
  simpl. lia.
Defined.

Lemma error_names_built_once_witness :
  xerror_to_name (snd (get_X_error x11_host (AInt 3) (idle []))) <> ∅
  /\ xerror_to_name (snd (get_X_error x11_host (AInt 11)
                            (snd (get_X_error x11_host (AInt 3) (idle [])))))
     = xerror_to_name (snd (get_X_error x11_host (AInt 3) (idle [])))
  /\ fst (get_X_error x11_host (AInt 11) (snd (get_X_error x11_host (AInt 3) (idle []))))
     = fst (get_X_error x11_host (AInt 11) (idle [])).
Proof.
  apply (error_names_built_once x11_host x11_constants 3 11 (idle [])).
  reflexivity.
Defined.

Lemma last_error_constant_names_code_witness :
  fst (get_X_error shared_code_host (AInt 5) (idle [])) = Ret "BadAtom".
Proof.
  apply (last_error_constant_names_code shared_code_host
           [("BadFirst", 5)] [("Five", 5)] "BadAtom" 5 (idle [])).
  - reflexivity.
  - reflexivity.
  - reflexivity.
  - intros n [Heq|[]]. injection Heq as <-. reflexivity.
Defined.

Lemma zero_resolves_to_OK_witness :
  fst (get_X_error no_success_host (AInt 0) (idle [])) = Ret "OK".
Proof.
  apply (zero_resolves_to_OK no_success_host [("BadRequest", 1); ("CurrentTime", 0)]
           (idle [])).
  - reflexivity.
  - reflexivity.
  - intros n [Heq|[Heq|[]]].
    + discriminate Heq.
    + injection Heq as <-. reflexivity.
Defined.

Lemma verify_sync_silent_in_region_witness :
  verify_sync x11_host [PTuple [AInt 1; AInt 2]]
    (snd (Xenter default_config x11_host (idle [])))
  = (Ret tt, snd (Xenter default_config x11_host (idle []))).
Proof.
  apply (verify_sync_silent_in_region default_config x11_host
           [PTuple [AInt 1; AInt 2]] (idle [])).
  simpl. lia.
Defined.

Lemma verify_sync_reports_unmanaged_witness :
  exists l,
    verify_sync x11_host [PAtom (AStr "XGetAtomName")] (idle []) = (Ret tt, logged (idle []) l)
    /\ error_entries l = l
    /\ l = unmanaged_log
           :: match [PAtom (AStr "XGetAtomName")] with
              | [] => []
              | a0 :: _ => match percent_s a0 with
                           | inr fmt => [Log Error fmt []]
                           | inl _ => []
                           end
              end ++ stack_log x11_host.
Proof.
  apply (verify_sync_reports_unmanaged x11_host [PAtom (AStr "XGetAtomName")] (idle [])).
  - simpl. lia.
  - simpl. exists " XGetAtomName". reflexivity.
Defined.
